(** * Quality control of nucleotide sequences: the filter pipeline and its reports

    A shallow embedding of [sequence_qc_summary.py].  The script reads a
    tab-delimited table, removes the rows whose sequence holds an ['N'],
    whose length value is below a threshold or whose sequence was seen
    before, and writes a removal report, a metrics report and three
    charts.

    Modelling choices.
    - A pandas [DataFrame] is a header (the column names) and an ordered list
      of rows.  A row carries its index label (its row identity: boolean-mask
      selection keeps the labels), the cell under the designated sequence
      column, the cell under the designated length column and the cells of
      the remaining columns.  The designated sequence and length columns are
      taken to be two different columns, neither of them named
      [GC_percentage] or [reason_removed].
    - A cell is what [read_csv] yields: a string, an integer or a missing
      value (a float NaN).
    - Python exceptions are the [Raise] results of an error monad; the
      [to_csv] and [savefig] calls append to a log of written files.  [main]
      is the script down to its second report in a working directory where
      both reports can be written; [script] is the whole script, charts
      included, in an environment that says which files can be written and
      what the plotting library does with a chart.
    - pandas computes the statistics in binary64; here a number is an exact
      rational, a sample standard deviation is kept as the square root of a
      rational variance, and NaN is a value of its own.
    - Strings are byte strings; [str.upper] is modelled on ASCII letters,
      so what is said of upper-casing and of the length of a sequence is
      said of sequences of ASCII characters. *)

From Stdlib Require Import List String Ascii Bool Arith ZArith QArith Lia.
From Stdlib Require Import Permutation Sorted Qfield.
Import ListNotations.

Close Scope Q_scope.
Local Open Scope string_scope.
Local Open Scope list_scope.
Local Open Scope nat_scope.

(** ** Exceptions and the error monad *)

Inductive exn : Type :=
| FileError          (* read_csv could not read or parse the input path *)
| ValueError         (* int(argv[4]) on a non-integer argument;
                        df.loc[:, 'reason_removed'] = reason on a frame
                        without rows; a chart that cannot be drawn *)
| KeyError           (* a designated column is not in the header *)
| AttributeError     (* seq.count on a value that is not a string *)
| TypeError          (* length < min_length on a string *)
| ZeroDivisionError  (* removed_rows / original_rows with no row *)
| OSError.           (* a file that cannot be written *)

Inductive result (A : Type) : Type :=
| Ok (a : A)
| Raise (e : exn).

Arguments Ok {A} a.
Arguments Raise {A} e.

Definition bind {A B : Type} (c : result A) (k : A -> result B) : result B :=
  match c with
  | Ok a => k a
  | Raise e => Raise e
  end.

Notation "x <- c ;; k" := (bind c (fun x => k))
  (at level 61, c at next level, right associativity).
Notation "' pat <- c ;; k" := (bind c (fun x => match x with pat => k end))
  (at level 61, pat pattern, c at next level, right associativity).

(** ** Data model *)

Inductive cell : Type :=
| CStr (s : string)
| CInt (z : Z)
| CNaN.

Record row : Type := mkRow {
  label : nat;          (* index label given by read_csv *)
  seq : cell;           (* the cell under seq_column *)
  len : cell;           (* the cell under length_column *)
  others : list cell    (* the remaining columns *)
}.

Record DataFrame : Type := mkFrame {
  columns : list string;
  rows : list row
}.

(** Value equality as [Series.isin] and [duplicated] see it: a missing value
    matches a missing value. *)
Definition cell_eqb (x y : cell) : bool :=
  match x, y with
  | CStr s, CStr t => String.eqb s t
  | CInt a, CInt b => Z.eqb a b
  | CNaN, CNaN => true
  | _, _ => false
  end.

Definition isin (values : list cell) (x : cell) : bool :=
  existsb (cell_eqb x) values.

Definition has_column (dataset : DataFrame) (name : string) : bool :=
  existsb (String.eqb name) (columns dataset).

(** [dataset[name]]: the cells of one column, [KeyError] when the header does
    not have it. *)
Definition column (field : row -> cell) (dataset : DataFrame) (name : string)
  : result (list cell) :=
  if has_column dataset name then Ok (map field (rows dataset))
  else Raise KeyError.

(** [rs[mask]]: the rows at which the boolean mask is true, in order. *)
Fixpoint select (rs : list row) (mask : list bool) : list row :=
  match rs, mask with
  | r :: rs', b :: mask' =>
      if b then r :: select rs' mask' else select rs' mask'
  | _, _ => []
  end.

Definition loc (dataset : DataFrame) (mask : list bool) : DataFrame :=
  mkFrame (columns dataset) (select (rows dataset) mask).

(** [s.count(c)] for a one-character pattern. *)
Fixpoint count (c : ascii) (s : string) : nat :=
  match s with
  | EmptyString => 0
  | String a s' => (if Ascii.eqb a c then 1 else 0) + count c s'
  end.

(** ** The three filters *)

(** The loop of [filter_ambiguous]: every sequence with at least one ['N'] is
    appended to [fail_list]; a value without [count] raises. *)
Fixpoint ambiguous_fail_list (col : list cell) : result (list cell) :=
  match col with
  | [] => Ok []
  | CStr s :: rest =>
      fail_list <- ambiguous_fail_list rest ;;
      Ok (if 1 <=? count "N"%char s then CStr s :: fail_list else fail_list)
  | _ :: _ => Raise AttributeError
  end.

Definition filter_ambiguous (dataset : DataFrame) (seq_column : string)
  : result (DataFrame * DataFrame * string) :=
  col <- column seq dataset seq_column ;;
  fail_list <- ambiguous_fail_list col ;;
  let mask := map (isin fail_list) col in
  let removed_list := loc dataset mask in
  let dataset_clean := loc dataset (map negb mask) in
  Ok (dataset_clean, removed_list, "ambiguous_N").

(** The loop of [filter_length]: [length < min_length] is false on a missing
    value and raises on a string. *)
Fixpoint length_fail_list (col : list cell) (min_length : Z)
  : result (list cell) :=
  match col with
  | [] => Ok []
  | CInt z :: rest =>
      fail_list <- length_fail_list rest min_length ;;
      Ok (if z <? min_length then CInt z :: fail_list else fail_list)%Z
  | CNaN :: rest => length_fail_list rest min_length
  | CStr _ :: _ => Raise TypeError
  end.

Definition filter_length (dataset : DataFrame) (length_column : string)
  (min_length : Z) : result (DataFrame * DataFrame * string) :=
  col <- column len dataset length_column ;;
  fail_list <- length_fail_list col min_length ;;
  let mask := map (isin fail_list) col in
  let removed_list := loc dataset mask in
  let dataset_clean := loc dataset (map negb mask) in
  Ok (dataset_clean, removed_list, "short_length").

(** [duplicated(keep='first')]: true at every value seen at an earlier row. *)
Fixpoint duplicated_from (seen : list cell) (col : list cell) : list bool :=
  match col with
  | [] => []
  | x :: rest => isin seen x :: duplicated_from (x :: seen) rest
  end.

Definition duplicated (col : list cell) : list bool := duplicated_from [] col.

Definition filter_duplicate (dataset : DataFrame) (seq_column : string)
  : result (DataFrame * DataFrame * string) :=
  col <- column seq dataset seq_column ;;
  let mask := duplicated col in
  let removed_list := loc dataset mask in
  let dataset_clean := loc dataset (map negb mask) in
  Ok (dataset_clean, removed_list, "duplicate").

(** ** The removal report (script lines 69 to 91) *)

Record removal_row : Type := mkRemoval {
  r_seq : cell;
  r_len : cell;
  reason_removed : string
}.

(** One turn of the labelling loop: [df[columns_to_keep].copy()] and the new
    column [reason_removed].  Line 87 sets the new column from a scalar
    through [.loc], which pandas refuses on a frame without rows
    ([ValueError]: cannot set a frame with no defined index and a scalar). *)
Definition label_removed (seq_column length_column : string)
  (record : DataFrame * string) : result (list removal_row) :=
  let '(df, reason) := record in
  s <- column seq df seq_column ;;
  l <- column len df length_column ;;
  match rows df with
  | [] => Raise ValueError
  | _ :: _ => Ok (map (fun r => mkRemoval (seq r) (len r) reason) (rows df))
  end.

Fixpoint label_all (seq_column length_column : string)
  (removal_records : list (DataFrame * string))
  : result (list (list removal_row)) :=
  match removal_records with
  | [] => Ok []
  | record :: rest =>
      df <- label_removed seq_column length_column record ;;
      dfs <- label_all seq_column length_column rest ;;
      Ok (df :: dfs)
  end.

(** Lines 69 to 77: the three filters in their fixed order, each fed the rows
    the one before kept, and the removed batches with their reasons. *)
Definition run_filters (dataset : DataFrame) (seq_column length_column : string)
  (min_length : Z) : result (DataFrame * list (DataFrame * string)) :=
  let removal_records := [] in
  '(data, removed, reason) <- filter_ambiguous dataset seq_column ;;
  let removal_records := removal_records ++ [(removed, reason)] in
  '(data, removed, reason) <- filter_length data length_column min_length ;;
  let removal_records := removal_records ++ [(removed, reason)] in
  '(data, removed, reason) <- filter_duplicate data seq_column ;;
  let removal_records := removal_records ++ [(removed, reason)] in
  Ok (data, removal_records).

(** Lines 69 to 91: the filters, the labelling loop and [pd.concat]. *)
Definition pipeline (dataset : DataFrame) (seq_column length_column : string)
  (min_length : Z) : result (DataFrame * list removal_row) :=
  '(data, removal_records) <-
     run_filters dataset seq_column length_column min_length ;;
  labelled <- label_all seq_column length_column removal_records ;;
  let removal_report := List.concat labelled in
  Ok (data, removal_report).

(** ** Numbers of the metrics report *)

Inductive number : Type :=
| Num (q : Q)     (* a finite value *)
| Sqrt (q : Q)    (* the square root of a variance *)
| NaN.

Definition of_nat (n : nat) : Q := inject_Z (Z.of_nat n).

(** Python's true division of two [int]s. *)
Definition true_div (a b : nat) : result Q :=
  if b =? 0 then Raise ZeroDivisionError else Ok (of_nat a / of_nat b)%Q.

(** pandas' division of two integer columns, cell by cell: 0/0 is NaN.  (A
    positive count over a zero length cannot occur.) *)
Definition series_div (a b : nat) : number :=
  if b =? 0 then NaN else Num (of_nat a / of_nat b)%Q.

Definition times (x : number) (k : Q) : number :=
  match x with
  | Num q => Num (q * k)%Q
  | _ => NaN
  end.

Definition upper_ascii (a : ascii) : ascii :=
  let n := nat_of_ascii a in
  if (97 <=? n) && (n <=? 122) then ascii_of_nat (n - 32) else a.

Fixpoint upper (s : string) : string :=
  match s with
  | EmptyString => EmptyString
  | String a s' => String (upper_ascii a) (upper s')
  end.

(** Line 107, for one retained row: the [.str] methods give NaN on a value
    that is not a string. *)
Definition GC_percentage (x : cell) : number :=
  match x with
  | CStr s =>
      times (series_div (count "G"%char (upper s) + count "C"%char (upper s))
                        (String.length s)) 100
  | _ => NaN
  end.

(** A cell of the length column as a number of the statistics: a missing
    value is NaN.  (A retained row never holds a string there: the comparison
    with [min_length] would have raised.) *)
Definition numeric (x : cell) : number :=
  match x with
  | CInt z => Num (inject_Z z)
  | _ => NaN
  end.

(** ** Statistics of a numeric column; missing values are skipped *)

Definition dropna (col : list number) : list Q :=
  flat_map (fun x => match x with Num q => [q] | _ => [] end) col.

Definition qmin (a b : Q) : Q := if Qle_bool a b then a else b.
Definition qmax (a b : Q) : Q := if Qle_bool a b then b else a.

Definition qsum (l : list Q) : Q := fold_left Qplus l 0%Q.

Fixpoint qinsert (x : Q) (l : list Q) : list Q :=
  match l with
  | [] => [x]
  | y :: l' => if Qle_bool x y then x :: l else y :: qinsert x l'
  end.

Definition qsort (l : list Q) : list Q := fold_right qinsert [] l.

Definition series_min (col : list number) : number :=
  match dropna col with
  | [] => NaN
  | q :: qs => Num (fold_left qmin qs q)
  end.

Definition series_max (col : list number) : number :=
  match dropna col with
  | [] => NaN
  | q :: qs => Num (fold_left qmax qs q)
  end.

Definition series_mean (col : list number) : number :=
  match dropna col with
  | [] => NaN
  | qs => Num (qsum qs / of_nat (List.length qs))%Q
  end.

Definition series_median (col : list number) : number :=
  match qsort (dropna col) with
  | [] => NaN
  | qs =>
      let n := List.length qs in
      if Nat.even n
      then Num ((nth (n / 2 - 1) qs 0 + nth (n / 2) qs 0) / 2)%Q
      else Num (nth (n / 2) qs 0%Q)
  end.

(** Sample standard deviation, divisor n - 1: NaN below two values. *)
Definition series_std (col : list number) : number :=
  let qs := dropna col in
  let n := List.length qs in
  if n <=? 1 then NaN
  else
    let mean := (qsum qs / of_nat n)%Q in
    Sqrt (qsum (map (fun x => (x - mean) * (x - mean))%Q qs) / of_nat (n - 1))%Q.

(** ** [value_counts] *)

(** The hash table pass: one entry per distinct value, in order of first
    appearance. *)
Fixpoint count_up (key : string) (counts : list (string * nat))
  : list (string * nat) :=
  match counts with
  | [] => [(key, 1)]
  | (k, n) :: rest =>
      if String.eqb k key then (k, S n) :: rest
      else (k, n) :: count_up key rest
  end.

Definition tally (col : list string) : list (string * nat) :=
  fold_left (fun counts key => count_up key counts) col [].

(** The sort of [value_counts]: decreasing count, equal counts staying in
    their order of first appearance. *)
Fixpoint insert_desc (e : string * nat) (l : list (string * nat))
  : list (string * nat) :=
  match l with
  | [] => [e]
  | e' :: l' =>
      if snd e' <=? snd e then e :: l else e' :: insert_desc e l'
  end.

Definition value_counts (col : list string) : list (string * nat) :=
  fold_right insert_desc [] (tally col).

(** ** The metrics report (script lines 107 to 135) *)

(** One turn of the loop over [numeric_cols]. *)
Definition describe (col : string) (values : list number)
  : list (string * number) :=
  [ (("min_" ++ col)%string, series_min values);
    (("max_" ++ col)%string, series_max values);
    (("mean_" ++ col)%string, series_mean values);
    (("median_" ++ col)%string, series_median values);
    (("std_" ++ col)%string, series_std values) ].

(** The entries [removed_<reason>], one per element of [value_counts]. *)
Definition removed_entries (removed_reason_count : list (string * nat))
  : list (string * number) :=
  map (fun e => (("removed_" ++ fst e)%string, Num (of_nat (snd e))))
      removed_reason_count.

(** The rows of [metrics_summary]: [summary_data['metric']] paired with
    [summary_data['value']].  After line 107 [data] always has the column
    [GC_percentage], so [numeric_cols] has two elements. *)
Definition metrics_summary (data : DataFrame) (length_column : string)
  (removed_rows : nat) (fraction_rows : Q)
  (removed_reason_count : list (string * nat)) : list (string * number) :=
  let GC := map (fun r => GC_percentage (seq r)) (rows data) in
  let lengths := map (fun r => numeric (len r)) (rows data) in
  let numeric_cols := [(length_column, lengths); ("GC_percentage", GC)] in
  flat_map (fun c => describe (fst c) (snd c)) numeric_cols
  ++ [("removed_rows", Num (of_nat removed_rows));
      ("fraction_rows", Num fraction_rows)]
  ++ removed_entries removed_reason_count.

(** ** The script: errors and written files *)

(** What the plotting calls are asked to draw: [sns.histplot] with its data,
    [bins] and [kde], and [plt.pie] with its values and the labels of its
    legend. *)
Inductive chart : Type :=
| Histogram (values : list number) (bins : nat) (kde : bool)
| Pie (x : list nat) (labels : list string).

(** What [to_csv] and [savefig] are given to write: the table or the chart
    itself. *)
Inductive file : Type :=
| RemovalReport (table : list removal_row)
| MetricsReport (table : list (string * number))
| Figure (drawing : chart).

(** The files written so far, oldest first. *)
Definition disk : Type := list (string * file).

(** A step of the script: it may raise, and it may write. *)
Definition io (A : Type) : Type := disk -> result A * disk.

Definition io_bind {A B : Type} (c : io A) (k : A -> io B) : io B :=
  fun d =>
    match c d with
    | (Ok a, d') => k a d'
    | (Raise e, d') => (Raise e, d')
    end.

Definition lift {A : Type} (c : result A) : io A := fun d => (c, d).

Definition to_csv (name : string) (content : file) : io unit :=
  fun d => (Ok tt, d ++ [(name, content)]).

Notation "x <~ c ;; k" := (io_bind c (fun x => k))
  (at level 61, c at next level, right associativity).
Notation "' pat <~ c ;; k" := (io_bind c (fun x => match x with pat => k end))
  (at level 61, pat pattern, c at next level, right associativity).

(** The script from the command line to the second report (lines 25 to
    136), where both reports can be written.  [dataset_read] is what
    [pd.read_csv(argv[1], sep='\t')] gives and [min_length_read] what
    [int(argv[4])] gives.  The charts that follow, and files that cannot be
    written, are in [script] below. *)
Definition main (dataset_read : result DataFrame)
  (seq_column length_column : string) (min_length_read : result Z) : io unit :=
  dataset <~ lift dataset_read ;;
  min_length <~ lift min_length_read ;;
  let original_rows := List.length (rows dataset) in
  '(data, removal_report) <~
     lift (pipeline dataset seq_column length_column min_length) ;;
  let removed_rows := List.length removal_report in
  ratio <~ lift (true_div removed_rows original_rows) ;;
  let fraction_rows := (ratio * 100)%Q in
  let removed_reason_count :=
    value_counts (map reason_removed removal_report) in
  _ <~ to_csv "QC_removal_report.tsv" (RemovalReport removal_report) ;;
  let summary_data :=
    metrics_summary data length_column removed_rows fraction_rows
                    removed_reason_count in
  to_csv "QC_metrics_report.csv" (MetricsReport summary_data).

(** A run on a file that was read and a threshold that was parsed, from an
    empty working directory. *)
Definition run (dataset : DataFrame) (seq_column length_column : string)
  (min_length : Z) : result unit * disk :=
  main (Ok dataset) seq_column length_column (Ok min_length) [].

(** ** The whole script, in a working directory that may refuse a file *)

(** What the script does not decide: whether a file of a given name can be
    written, and what seaborn and matplotlib do with a chart they are asked
    to draw. *)
Record environment : Type := mkEnv {
  writable : string -> bool;
  draw : chart -> result unit
}.

(** [to_csv] and [savefig] where the file may be refused. *)
Definition write (env : environment) (name : string) (content : file)
  : io unit :=
  fun d =>
    if writable env name then (Ok tt, d ++ [(name, content)])
    else (Raise OSError, d).

(** Lines 144 and 145, 162 and 163: [int(math.sqrt(n))], the integer square
    root for every row count below 2^52. *)
Definition number_bins (n : nat) : nat := Nat.sqrt n.

(** The three charts of lines 144 to 193, as they are asked for. *)
Definition length_chart (data : DataFrame) : chart :=
  let lengths := map (fun r => numeric (len r)) (rows data) in
  Histogram lengths (number_bins (List.length lengths)) false.

Definition GC_chart (data : DataFrame) : chart :=
  let GC := map (fun r => GC_percentage (seq r)) (rows data) in
  Histogram GC (number_bins (List.length GC)) true.

Definition reason_chart (removed_reason_count : list (string * nat)) : chart :=
  Pie (map snd removed_reason_count) (map fst removed_reason_count).

(** Lines 139 to 193: each chart is drawn, then saved. *)
Definition charts (env : environment) (data : DataFrame)
  (removed_reason_count : list (string * nat)) : io unit :=
  _ <~ lift (draw env (length_chart data)) ;;
  _ <~ write env "Sequence_length_distribution.png"
         (Figure (length_chart data)) ;;
  _ <~ lift (draw env (GC_chart data)) ;;
  _ <~ write env "gc_base_proportion.png" (Figure (GC_chart data)) ;;
  _ <~ lift (draw env (reason_chart removed_reason_count)) ;;
  write env "Sequence_removal_reason.png"
    (Figure (reason_chart removed_reason_count)).

(** The script from its first line to its last. *)
Definition script (env : environment) (dataset_read : result DataFrame)
  (seq_column length_column : string) (min_length_read : result Z) : io unit :=
  dataset <~ lift dataset_read ;;
  min_length <~ lift min_length_read ;;
  let original_rows := List.length (rows dataset) in
  '(data, removal_report) <~
     lift (pipeline dataset seq_column length_column min_length) ;;
  let removed_rows := List.length removal_report in
  ratio <~ lift (true_div removed_rows original_rows) ;;
  let fraction_rows := (ratio * 100)%Q in
  let removed_reason_count :=
    value_counts (map reason_removed removal_report) in
  _ <~ write env "QC_removal_report.tsv" (RemovalReport removal_report) ;;
  let summary_data :=
    metrics_summary data length_column removed_rows fraction_rows
                    removed_reason_count in
  _ <~ write env "QC_metrics_report.csv" (MetricsReport summary_data) ;;
  charts env data removed_reason_count.

(** ** Vocabulary of the properties *)

Definition ambiguous (x : cell) : bool :=
  match x with
  | CStr s => 1 <=? count "N"%char s
  | _ => false
  end.

Definition short (min_length : Z) (x : cell) : bool :=
  match x with
  | CInt z => (z <? min_length)%Z
  | _ => false
  end.

Definition is_str (x : cell) : bool :=
  match x with CStr _ => true | _ => false end.

Definition comparable (x : cell) : bool :=
  match x with CStr _ => false | _ => true end.

Definition is_int (x : cell) : bool :=
  match x with CInt _ => true | _ => false end.

(** A well-formed table: both designated columns are in the header, every
    sequence is a string, every length an integer, and the index labels are
    pairwise different. *)
Record well_formed (dataset : DataFrame) (seq_column length_column : string)
  : Prop := {
  wf_seq_column : has_column dataset seq_column = true;
  wf_length_column : has_column dataset length_column = true;
  wf_seq : forallb (fun r => is_str (seq r)) (rows dataset) = true;
  wf_len : forallb (fun r => is_int (len r)) (rows dataset) = true;
  wf_labels : NoDup (map label (rows dataset))
}.

(** [kept] and [removed] split [input]: together they are its rows, and no
    row (by label) is on both sides. *)
Definition partitions (input kept removed : DataFrame) : Prop :=
  Permutation (rows kept ++ rows removed) (rows input) /\
  (forall i, In i (map label (rows kept)) ->
             In i (map label (rows removed)) -> False).

(** [r] is the first row of [t] with its sequence. *)
Definition first_occurrence (t : list row) (r : row) : Prop :=
  exists before after,
    t = before ++ r :: after /\
    Forall (fun r' => seq r' <> seq r) before.

(** ** The filters and the pipeline in closed form

    What the masks of the three filters select, written with [filter]; the
    lemmas below show that the source functions compute exactly these. *)

(** The rows of [dataset] that satisfy [p], under the same header. *)
Definition keep (dataset : DataFrame) (p : row -> bool) : DataFrame :=
  mkFrame (columns dataset) (filter p (rows dataset)).

(** A removed row as the removal report shows it. *)
Definition tag (reason : string) (r : row) : removal_row :=
  mkRemoval (seq r) (len r) reason.

Definition no_N (dataset : DataFrame) : DataFrame :=
  keep dataset (fun r => negb (ambiguous (seq r))).

Definition with_N (dataset : DataFrame) : DataFrame :=
  keep dataset (fun r => ambiguous (seq r)).

Definition long_enough (min_length : Z) (dataset : DataFrame) : DataFrame :=
  keep dataset (fun r => negb (short min_length (len r))).

Definition too_short (min_length : Z) (dataset : DataFrame) : DataFrame :=
  keep dataset (fun r => short min_length (len r)).

Definition firsts (dataset : DataFrame) : DataFrame :=
  loc dataset (map negb (duplicated (map seq (rows dataset)))).

Definition repeats (dataset : DataFrame) : DataFrame :=
  loc dataset (duplicated (map seq (rows dataset))).

Definition final_kept (dataset : DataFrame) (min_length : Z) : DataFrame :=
  firsts (long_enough min_length (no_N dataset)).

Definition final_report (dataset : DataFrame) (min_length : Z)
  : list removal_row :=
  map (tag "ambiguous_N") (rows (with_N dataset))
  ++ map (tag "short_length") (rows (too_short min_length (no_N dataset)))
  ++ map (tag "duplicate") (rows (repeats (long_enough min_length (no_N dataset)))).

(** The three removed batches, as [removal_records] holds them after line
    77. *)
Definition batches (dataset : DataFrame) (min_length : Z)
  : list (DataFrame * string) :=
  [ (with_N dataset, "ambiguous_N");
    (too_short min_length (no_N dataset), "short_length");
    (repeats (long_enough min_length (no_N dataset)), "duplicate") ].

Definition has_rows (df : DataFrame) : bool :=
  match rows df with [] => false | _ :: _ => true end.

(** Every filter removed at least one row. *)
Definition every_batch_has_rows (dataset : DataFrame) (min_length : Z) : bool :=
  forallb (fun record => has_rows (fst record)) (batches dataset min_length).

(** The column [reason_removed] of a removal report with [n1] ambiguous,
    [n2] short and [n3] duplicate rows. *)
Definition reasons_column (n1 n2 n3 : nat) : list string :=
  repeat "ambiguous_N" n1 ++ repeat "short_length" n2 ++ repeat "duplicate" n3.

(** ** The written files, and reading the metrics report *)

Definition removal_file (removal_report : list removal_row) : string * file :=
  ("QC_removal_report.tsv", RemovalReport removal_report).

Definition metrics_file (summary_data : list (string * number))
  : string * file :=
  ("QC_metrics_report.csv", MetricsReport summary_data).

(** The three images, in the order in which the script saves them. *)
Definition chart_files (data : DataFrame)
  (removed_reason_count : list (string * nat)) : list (string * file) :=
  [ ("Sequence_length_distribution.png", Figure (length_chart data));
    ("gc_base_proportion.png", Figure (GC_chart data));
    ("Sequence_removal_reason.png",
     Figure (reason_chart removed_reason_count)) ].

(** Neither report is among the written files. *)
Definition no_report (written : disk) : Prop :=
  forall name content,
    In (name, content) written ->
    name <> "QC_removal_report.tsv" /\ name <> "QC_metrics_report.csv".

(** The sentence of the specification on failing runs, word for word, for
    one run: if the run does not complete, neither report is written. *)
Definition no_partial_output (env : environment)
  (dataset_read : result DataFrame) (seq_column length_column : string)
  (min_length_read : result Z) : Prop :=
  forall e written,
    script env dataset_read seq_column length_column min_length_read []
      = (Raise e, written) ->
    no_report written.

(** The value of the first entry named [name]. *)
Definition metric (name : string) (summary_data : list (string * number))
  : option number :=
  match find (fun e => String.eqb (fst e) name) summary_data with
  | Some e => Some (snd e)
  | None => None
  end.

(** The number of rows of the removal report that carry [reason]. *)
Definition removed_for (reason : string) (removal_report : list removal_row)
  : nat :=
  count_occ string_dec (map reason_removed removal_report) reason.

(** The place of a reason in the order the filters run. *)
Definition rank (reason : string) : nat :=
  if String.eqb reason "ambiguous_N" then 0
  else if String.eqb reason "short_length" then 1
  else if String.eqb reason "duplicate" then 2
  else 3.

(** [a] comes before [b]: a larger count, or the same count and a filter
    that runs earlier. *)
Definition listed_before (a b : string * nat) : Prop :=
  snd b < snd a \/ (snd a = snd b /\ rank (fst a) < rank (fst b)).

(** Every character is an ASCII character. *)
Fixpoint is_ascii (s : string) : bool :=
  match s with
  | EmptyString => true
  | String a s' => (nat_of_ascii a <? 128) && is_ascii s'
  end.


(** The sentence of the specification on the rows of the final kept table,
    word for word, for one input: no ['N'], length at least [min_length],
    first row of the whole input with its sequence. *)
Definition kept_rows_first_in_input (dataset : DataFrame)
  (seq_column length_column : string) (min_length : Z) : Prop :=
  forall data removal_records,
    run_filters dataset seq_column length_column min_length
      = Ok (data, removal_records) ->
    forall r, In r (rows data) ->
      (exists s, seq r = CStr s /\ count "N"%char s = 0) /\
      (exists z, len r = CInt z /\ (min_length <= z)%Z) /\
      first_occurrence (rows dataset) r.

(** ** Concrete tables *)

(** Scenario A of the specification. *)
Definition scenario_A : DataFrame :=
  mkFrame ["sequence"; "length"]
    [ mkRow 0 (CStr "ACGT") (CInt 4) [];
      mkRow 1 (CStr "ACGN") (CInt 4) [];
      mkRow 2 (CStr "AC") (CInt 2) [];
      mkRow 3 (CStr "ACGT") (CInt 4) [] ].

(** The same sequence twice, the first time with a length value below 3. *)
Definition same_sequence_twice : DataFrame :=
  mkFrame ["sequence"; "length"]
    [ mkRow 0 (CStr "ACGT") (CInt 2) [];
      mkRow 1 (CStr "ACGT") (CInt 4) [] ].

(** A table whose second sequence is missing. *)
Definition missing_sequence : DataFrame :=
  mkFrame ["sequence"; "length"]
    [ mkRow 0 (CStr "ACGT") (CInt 4) [];
      mkRow 1 CNaN (CInt 4) [] ].

(** Scenario B of the specification: nothing to remove. *)
Definition scenario_B : DataFrame :=
  mkFrame ["sequence"; "length"]
    [ mkRow 0 (CStr "ACGT") (CInt 4) [];
      mkRow 1 (CStr "GGCC") (CInt 4) [];
      mkRow 2 (CStr "ACGTA") (CInt 5) [] ].

(** One row for each filter, and a kept row that is the second row of the
    input with its sequence: the first one has a length value below 3. *)
Definition later_copy_kept : DataFrame :=
  mkFrame ["sequence"; "length"]
    [ mkRow 0 (CStr "ACGN") (CInt 4) [];
      mkRow 1 (CStr "ACGT") (CInt 2) [];
      mkRow 2 (CStr "ACGT") (CInt 4) [];
      mkRow 3 (CStr "ACGT") (CInt 4) [] ].

(** A table without rows. *)
Definition no_rows : DataFrame := mkFrame ["sequence"; "length"] [].

(** A working directory in which every file can be written, and charts that
    are always drawn. *)
Definition obliging : environment :=
  mkEnv (fun _ => true) (fun _ => Ok tt).

(** A working directory in which [QC_metrics_report.csv] cannot be written
    (a read-only file or a directory of that name is in the way). *)
Definition metrics_report_refused : environment :=
  mkEnv (fun name => negb (String.eqb name "QC_metrics_report.csv"))
        (fun _ => Ok tt).

(** ** Proof automation *)

Ltac leb_cases :=
  repeat (cbn [filter snd negb Nat.eqb fold_right insert_desc];
          match goal with
          | |- context [?x <=? ?y] => destruct (Nat.leb_spec x y)
          end);
  cbn [filter snd negb Nat.eqb fold_right insert_desc].

Ltac pick_entry :=
  solve [ left; f_equal; lia | right; pick_entry ].

(** The files on disk after [k] charts. *)
Ltac chart_prefix :=
  split;
  [ cbn [firstn]; rewrite <- ?app_assoc, ?app_nil_r; reflexivity
  | lia || reflexivity ].

(** A concrete table is well formed. *)
Ltac table_ok :=
  constructor;
  [ reflexivity | reflexivity | reflexivity | reflexivity
  | simpl; repeat (constructor; [simpl; intuition discriminate |]);
    constructor ].

(** ** Basic facts: value equality, masks *)

Lemma cell_eqb_eq (x y : cell) : cell_eqb x y = true <-> x = y.
Proof.
  destruct x, y; simpl; split; intro H; try discriminate; try reflexivity.
  - apply String.eqb_eq in H; now subst.
  - inversion H; apply String.eqb_refl.
  - apply Z.eqb_eq in H; now subst.
  - inversion H; apply Z.eqb_refl.
Qed.

Lemma isin_In (values : list cell) (x : cell) :
  isin values x = true <-> In x values.
Proof.
  unfold isin; rewrite existsb_exists; split.
  - intros [y [Hy E]]; apply cell_eqb_eq in E; now subst.
  - intros H; exists x; split; [assumption | now apply cell_eqb_eq].
Qed.

Lemma isin_filter (p : cell -> bool) (col : list cell) (x : cell) :
  In x col -> isin (filter p col) x = p x.
Proof.
  intros Hx; destruct (p x) eqn:E.
  - apply isin_In, filter_In; auto.
  - destruct (isin (filter p col) x) eqn:F; [| reflexivity].
    apply isin_In, filter_In in F; destruct F; congruence.
Qed.

Lemma select_map (f : row -> bool) (rs : list row) :
  select rs (map f rs) = filter f rs.
Proof.
  induction rs as [| r rs IH]; simpl; [reflexivity |].
  destruct (f r); now rewrite IH.
Qed.

Lemma select_length (rs : list row) (mask : list bool) :
  List.length (select rs (map negb mask)) + List.length (select rs mask)
  = Nat.min (List.length rs) (List.length mask).
Proof.
  revert mask; induction rs as [| r rs IH]; intros [| b mask]; simpl; try reflexivity.
  destruct b; simpl; rewrite <- IH; lia.
Qed.

Lemma select_perm (rs : list row) (mask : list bool) :
  List.length mask = List.length rs ->
  Permutation (select rs (map negb mask) ++ select rs mask) rs.
Proof.
  revert mask; induction rs as [| r rs IH]; intros [| b mask] L;
    simpl in *; try discriminate; [constructor |].
  injection L as L; destruct b; simpl.
  - apply Permutation_sym, Permutation_cons_app, Permutation_sym, IH, L.
  - constructor; apply IH, L.
Qed.

Lemma select_incl (rs : list row) (mask : list bool) (r : row) :
  In r (select rs mask) -> In r rs.
Proof.
  revert mask; induction rs as [| a rs IH]; intros [| b mask] H;
    simpl in *; try contradiction.
  destruct b; simpl in H; [destruct H as [-> | H]; eauto | eauto].
Qed.

Lemma select_disjoint (rs : list row) (mask : list bool) (i : nat) :
  NoDup (map label rs) ->
  In i (map label (select rs (map negb mask))) ->
  In i (map label (select rs mask)) -> False.
Proof.
  revert mask; induction rs as [| a rs IH]; intros [| b mask] ND H1 H2;
    simpl in *; try contradiction.
  inversion ND as [| ? ? Hn ND']; subst.
  assert (Hsub : forall m, In i (map label (select rs m)) -> In i (map label rs)).
  { intros m Hm; apply in_map_iff in Hm; destruct Hm as [r [<- Hr]].
    apply in_map, (select_incl _ _ _ Hr). }
  destruct b; simpl in *.
  - destruct H2 as [<- | H2]; [apply Hn, (Hsub _ H1) | eapply IH; eauto].
  - destruct H1 as [<- | H1]; [apply Hn, (Hsub _ H2) | eapply IH; eauto].
Qed.

(** ** The filters as predicates on rows

    Selecting by membership of the value in [fail_list] is selecting by the
    test that filled [fail_list]: equal values pass or fail it together. *)

Lemma ambiguous_fail_list_eq (col : list cell) :
  ambiguous_fail_list col =
  if forallb is_str col then Ok (filter ambiguous col) else Raise AttributeError.
Proof.
  induction col as [| x col IH]; simpl; [reflexivity |].
  destruct x as [s | z |]; simpl; try reflexivity.
  rewrite IH; destruct (forallb is_str col); reflexivity.
Qed.

Lemma length_fail_list_eq (col : list cell) (min_length : Z) :
  length_fail_list col min_length =
  if forallb comparable col then Ok (filter (short min_length) col)
  else Raise TypeError.
Proof.
  induction col as [| x col IH]; simpl; [reflexivity |].
  destruct x as [s | z |]; simpl; try reflexivity.
  - rewrite IH; destruct (forallb comparable col); reflexivity.
  - exact IH.
Qed.

Lemma mask_of_fail_list (p : cell -> bool) (col : list cell) :
  map (isin (filter p col)) col = map p col.
Proof. apply map_ext_in; intros x Hx; now apply isin_filter. Qed.

Lemma forallb_map {A B : Type} (f : A -> B) (p : B -> bool) (l : list A) :
  forallb p (map f l) = forallb (fun a => p (f a)) l.
Proof. induction l as [| a l IH]; simpl; [reflexivity | now rewrite IH]. Qed.

Lemma loc_mask (dataset : DataFrame) (field : row -> cell) (p : cell -> bool) :
  loc dataset (map p (map field (rows dataset)))
  = keep dataset (fun r => p (field r)).
Proof. unfold loc, keep; now rewrite map_map, select_map. Qed.

Lemma loc_mask_neg (dataset : DataFrame) (field : row -> cell) (p : cell -> bool) :
  loc dataset (map negb (map p (map field (rows dataset))))
  = keep dataset (fun r => negb (p (field r))).
Proof. unfold loc, keep; now rewrite !map_map, select_map. Qed.

Lemma filter_ambiguous_eq (dataset : DataFrame) (seq_column : string) :
  filter_ambiguous dataset seq_column =
  if has_column dataset seq_column then
    if forallb (fun r => is_str (seq r)) (rows dataset) then
      Ok (keep dataset (fun r => negb (ambiguous (seq r))),
          keep dataset (fun r => ambiguous (seq r)),
          "ambiguous_N")
    else Raise AttributeError
  else Raise KeyError.
Proof.
  unfold filter_ambiguous, column.
  destruct (has_column dataset seq_column); simpl; [| reflexivity].
  rewrite ambiguous_fail_list_eq, forallb_map.
  destruct (forallb _ (rows dataset)); simpl; [| reflexivity].
  now rewrite mask_of_fail_list, loc_mask, loc_mask_neg.
Qed.

Lemma filter_length_eq (dataset : DataFrame) (length_column : string)
  (min_length : Z) :
  filter_length dataset length_column min_length =
  if has_column dataset length_column then
    if forallb (fun r => comparable (len r)) (rows dataset) then
      Ok (keep dataset (fun r => negb (short min_length (len r))),
          keep dataset (fun r => short min_length (len r)),
          "short_length")
    else Raise TypeError
  else Raise KeyError.
Proof.
  unfold filter_length, column.
  destruct (has_column dataset length_column); simpl; [| reflexivity].
  rewrite length_fail_list_eq, forallb_map.
  destruct (forallb _ (rows dataset)); simpl; [| reflexivity].
  now rewrite mask_of_fail_list, loc_mask, loc_mask_neg.
Qed.

Lemma filter_duplicate_eq (dataset : DataFrame) (seq_column : string) :
  filter_duplicate dataset seq_column =
  if has_column dataset seq_column then
    Ok (loc dataset (map negb (duplicated (map seq (rows dataset)))),
        loc dataset (duplicated (map seq (rows dataset))),
        "duplicate")
  else Raise KeyError.
Proof.
  unfold filter_duplicate, column.
  destruct (has_column dataset seq_column); reflexivity.
Qed.

Lemma duplicated_from_length (seen col : list cell) :
  List.length (duplicated_from seen col) = List.length col.
Proof.
  revert seen; induction col as [| x col IH]; intros seen; simpl;
    [reflexivity | now rewrite IH].
Qed.

Lemma is_int_comparable (rs : list row) :
  forallb (fun r => is_int (len r)) rs = true ->
  forallb (fun r => comparable (len r)) rs = true.
Proof.
  rewrite !forallb_forall; intros H r Hr; specialize (H r Hr).
  destruct (len r); simpl in *; congruence.
Qed.

Lemma forallb_filter {A : Type} (p q : A -> bool) (l : list A) :
  forallb p l = true -> forallb p (filter q l) = true.
Proof.
  rewrite !forallb_forall; intros H a Ha; apply filter_In in Ha; now apply H.
Qed.

Lemma forallb_select (p : row -> bool) (rs : list row) (mask : list bool) :
  forallb p rs = true -> forallb p (select rs mask) = true.
Proof.
  rewrite !forallb_forall; intros H a Ha; eapply H, select_incl, Ha.
Qed.

(** ** The pipeline in closed form *)

Lemma has_column_keep (dataset : DataFrame) (p : row -> bool) (name : string) :
  has_column (keep dataset p) name = has_column dataset name.
Proof. reflexivity. Qed.

Lemma run_filters_eq (dataset : DataFrame) (seq_column length_column : string)
  (min_length : Z) :
  run_filters dataset seq_column length_column min_length =
  if has_column dataset seq_column then
    if forallb (fun r => is_str (seq r)) (rows dataset) then
      if has_column dataset length_column then
        if forallb (fun r => comparable (len r)) (rows (no_N dataset)) then
          Ok (final_kept dataset min_length, batches dataset min_length)
        else Raise TypeError
      else Raise KeyError
    else Raise AttributeError
  else Raise KeyError.
Proof.
  unfold run_filters.
  rewrite filter_ambiguous_eq.
  destruct (has_column dataset seq_column) eqn:Hs; [| reflexivity].
  destruct (forallb _ (rows dataset)) eqn:Hstr; [| reflexivity].
  cbn [bind]. rewrite filter_length_eq, has_column_keep.
  destruct (has_column dataset length_column) eqn:Hl; [| reflexivity].
  fold (no_N dataset).
  destruct (forallb _ (rows (no_N dataset))) eqn:Hcmp; [| reflexivity].
  cbn [bind]. unfold no_N. rewrite filter_duplicate_eq, !has_column_keep, Hs.
  reflexivity.
Qed.

(** The labelling loop on the three batches: it gets through exactly when no
    batch is without rows. *)
Lemma label_all_batches (dataset : DataFrame) (seq_column length_column : string)
  (min_length : Z) :
  has_column dataset seq_column = true ->
  has_column dataset length_column = true ->
  label_all seq_column length_column (batches dataset min_length) =
  if every_batch_has_rows dataset min_length then
    Ok [ map (tag "ambiguous_N") (rows (with_N dataset));
         map (tag "short_length") (rows (too_short min_length (no_N dataset)));
         map (tag "duplicate")
             (rows (repeats (long_enough min_length (no_N dataset)))) ]
  else Raise ValueError.
Proof.
  intros Hs Hl.
  unfold every_batch_has_rows, batches, has_rows.
  cbn [label_all label_removed forallb fst].
  unfold column.
  change (has_column (with_N dataset) seq_column)
    with (has_column dataset seq_column).
  change (has_column (with_N dataset) length_column)
    with (has_column dataset length_column).
  change (has_column (too_short min_length (no_N dataset)) seq_column)
    with (has_column dataset seq_column).
  change (has_column (too_short min_length (no_N dataset)) length_column)
    with (has_column dataset length_column).
  change (has_column (repeats (long_enough min_length (no_N dataset)))
            seq_column) with (has_column dataset seq_column).
  change (has_column (repeats (long_enough min_length (no_N dataset)))
            length_column) with (has_column dataset length_column).
  rewrite Hs, Hl.
  cbn [bind].
  destruct (rows (with_N dataset)) as [| a1 t1]; [reflexivity |].
  destruct (rows (too_short min_length (no_N dataset))) as [| a2 t2];
    [reflexivity |].
  destruct (rows (repeats (long_enough min_length (no_N dataset))))
    as [| a3 t3]; reflexivity.
Qed.

Lemma pipeline_eq (dataset : DataFrame) (seq_column length_column : string)
  (min_length : Z) :
  pipeline dataset seq_column length_column min_length =
  if has_column dataset seq_column then
    if forallb (fun r => is_str (seq r)) (rows dataset) then
      if has_column dataset length_column then
        if forallb (fun r => comparable (len r)) (rows (no_N dataset)) then
          if every_batch_has_rows dataset min_length then
            Ok (final_kept dataset min_length, final_report dataset min_length)
          else Raise ValueError
        else Raise TypeError
      else Raise KeyError
    else Raise AttributeError
  else Raise KeyError.
Proof.
  unfold pipeline.
  rewrite run_filters_eq.
  destruct (has_column dataset seq_column) eqn:Hs; [| reflexivity].
  destruct (forallb _ (rows dataset)) eqn:Hstr; [| reflexivity].
  destruct (has_column dataset length_column) eqn:Hl; [| reflexivity].
  destruct (forallb _ (rows (no_N dataset))) eqn:Hcmp; [| reflexivity].
  cbn [bind]. rewrite (label_all_batches _ _ _ _ Hs Hl).
  destruct (every_batch_has_rows dataset min_length); [| reflexivity].
  cbn [bind List.concat]. unfold final_report. rewrite app_nil_r. reflexivity.
Qed.

(** A well-formed table goes through the three filters without error. *)
Lemma run_filters_well_formed (dataset : DataFrame)
  (seq_column length_column : string) (min_length : Z) :
  well_formed dataset seq_column length_column ->
  run_filters dataset seq_column length_column min_length =
  Ok (final_kept dataset min_length, batches dataset min_length).
Proof.
  intros [Hs Hl Hstr Hint _].
  rewrite run_filters_eq, Hs, Hl, Hstr.
  unfold no_N, keep; cbn [rows].
  now rewrite (forallb_filter _ _ _ (is_int_comparable _ Hint)).
Qed.

(** It goes through the labelling loop when every filter removed a row, and
    stops there otherwise. *)
Lemma pipeline_well_formed (dataset : DataFrame)
  (seq_column length_column : string) (min_length : Z) :
  well_formed dataset seq_column length_column ->
  pipeline dataset seq_column length_column min_length =
  if every_batch_has_rows dataset min_length then
    Ok (final_kept dataset min_length, final_report dataset min_length)
  else Raise ValueError.
Proof.
  intros [Hs Hl Hstr Hint _].
  rewrite pipeline_eq, Hs, Hl, Hstr.
  unfold no_N, keep; cbn [rows].
  now rewrite (forallb_filter _ _ _ (is_int_comparable _ Hint)).
Qed.

Lemma keep_partitions (dataset : DataFrame) (p : row -> bool) :
  NoDup (map label (rows dataset)) ->
  partitions dataset (keep dataset (fun r => negb (p r))) (keep dataset p).
Proof.
  intros ND; unfold partitions, keep; cbn [rows].
  rewrite <- (select_map p), <- (select_map (fun r => negb (p r))).
  replace (map (fun r => negb (p r)) (rows dataset))
    with (map negb (map p (rows dataset))) by now rewrite map_map.
  split.
  - apply select_perm; now rewrite length_map.
  - intros i; now apply select_disjoint.
Qed.

Lemma firsts_partitions (dataset : DataFrame) :
  NoDup (map label (rows dataset)) ->
  partitions dataset (firsts dataset) (repeats dataset).
Proof.
  intros ND; unfold partitions, firsts, repeats, loc; cbn [rows]; split.
  - apply select_perm; unfold duplicated.
    now rewrite duplicated_from_length, length_map.
  - intros i; now apply select_disjoint.
Qed.

Lemma NoDup_labels_filter (p : row -> bool) (rs : list row) :
  NoDup (map label rs) -> NoDup (map label (filter p rs)).
Proof.
  induction rs as [| r rs IH]; simpl; intros ND; [constructor |].
  inversion ND as [| ? ? Hn ND']; subst.
  destruct (p r); simpl; [constructor |]; auto.
  intros Hin; apply Hn; apply in_map_iff in Hin; destruct Hin as [r' [E Hr']].
  apply filter_In in Hr'; rewrite <- E; now apply in_map.
Qed.

Lemma partitions_length (input kept removed : DataFrame) :
  partitions input kept removed ->
  List.length (rows kept) + List.length (rows removed)
  = List.length (rows input).
Proof.
  intros [P _]; apply Permutation_length in P; now rewrite length_app in P.
Qed.

(** A run of the pipeline that returns went through the four checks of the
    filters and found a row in every removed batch. *)
Lemma pipeline_ok (dataset : DataFrame) (seq_column length_column : string)
  (min_length : Z) (data : DataFrame) (removal_report : list removal_row) :
  pipeline dataset seq_column length_column min_length
    = Ok (data, removal_report) ->
  has_column dataset seq_column = true /\
  has_column dataset length_column = true /\
  forallb (fun r => is_str (seq r)) (rows dataset) = true /\
  forallb (fun r => comparable (len r)) (rows (no_N dataset)) = true /\
  data = final_kept dataset min_length /\
  removal_report = final_report dataset min_length.
Proof.
  rewrite pipeline_eq.
  destruct (has_column dataset seq_column); [| discriminate].
  destruct (forallb _ (rows dataset)); [| discriminate].
  destruct (has_column dataset length_column); [| discriminate].
  destruct (forallb _ (rows (no_N dataset))); [| discriminate].
  destruct (every_batch_has_rows dataset min_length); [| discriminate].
  intros [= <- <-]; repeat split.
Qed.

Lemma every_batch_has_rows_iff (dataset : DataFrame) (min_length : Z) :
  every_batch_has_rows dataset min_length = true <->
  rows (with_N dataset) <> [] /\
  rows (too_short min_length (no_N dataset)) <> [] /\
  rows (repeats (long_enough min_length (no_N dataset))) <> [].
Proof.
  unfold every_batch_has_rows, batches, has_rows; cbn [forallb fst].
  destruct (rows (with_N dataset)),
    (rows (too_short min_length (no_N dataset))),
    (rows (repeats (long_enough min_length (no_N dataset))));
    cbn; split; intros H; try discriminate; try reflexivity;
    try (repeat split; discriminate);
    destruct H as (H1 & H2 & H3); congruence.
Qed.

Lemma pipeline_ok_batches (dataset : DataFrame)
  (seq_column length_column : string) (min_length : Z) (data : DataFrame)
  (removal_report : list removal_row) :
  pipeline dataset seq_column length_column min_length
    = Ok (data, removal_report) ->
  rows (with_N dataset) <> [] /\
  rows (too_short min_length (no_N dataset)) <> [] /\
  rows (repeats (long_enough min_length (no_N dataset))) <> [].
Proof.
  rewrite pipeline_eq.
  destruct (has_column dataset seq_column); [| discriminate].
  destruct (forallb _ (rows dataset)); [| discriminate].
  destruct (has_column dataset length_column); [| discriminate].
  destruct (forallb _ (rows (no_N dataset))); [| discriminate].
  destruct (every_batch_has_rows dataset min_length) eqn:E; [| discriminate].
  intros _; now apply every_batch_has_rows_iff.
Qed.

Lemma run_filters_ok (dataset : DataFrame) (seq_column length_column : string)
  (min_length : Z) (data : DataFrame)
  (removal_records : list (DataFrame * string)) :
  run_filters dataset seq_column length_column min_length
    = Ok (data, removal_records) ->
  has_column dataset seq_column = true /\
  has_column dataset length_column = true /\
  forallb (fun r => is_str (seq r)) (rows dataset) = true /\
  forallb (fun r => comparable (len r)) (rows (no_N dataset)) = true /\
  data = final_kept dataset min_length /\
  removal_records = batches dataset min_length.
Proof.
  rewrite run_filters_eq.
  destruct (has_column dataset seq_column); [| discriminate].
  destruct (forallb _ (rows dataset)); [| discriminate].
  destruct (has_column dataset length_column); [| discriminate].
  destruct (forallb _ (rows (no_N dataset))); [| discriminate].
  intros [= <- <-]; repeat split.
Qed.

(** ** C1: every stage splits its input; nothing is lost or counted twice *)

(** C1.  On a well-formed table the three filters run without error, each
    one splits its input into a kept and a removed table that are disjoint
    (by row label) and together hold exactly the rows of the input, so that
    the rows of the three removed batches and of the final kept table add up
    to the rows of the original table.  The removal report is built from the
    three batches when each of them has a row (line 87 raises on a batch
    without rows); whenever it is built, its number of rows plus the number
    of rows of the final kept table is the number of rows of the original
    table. *)
Theorem removal_report_and_kept_cover_input
  (dataset : DataFrame) (seq_column length_column : string) (min_length : Z) :
  well_formed dataset seq_column length_column ->
  exists d1 r1 d2 r2 data r3,
    filter_ambiguous dataset seq_column = Ok (d1, r1, "ambiguous_N") /\
    filter_length d1 length_column min_length = Ok (d2, r2, "short_length") /\
    filter_duplicate d2 seq_column = Ok (data, r3, "duplicate") /\
    run_filters dataset seq_column length_column min_length
      = Ok (data, [(r1, "ambiguous_N"); (r2, "short_length");
                   (r3, "duplicate")]) /\
    partitions dataset d1 r1 /\
    partitions d1 d2 r2 /\
    partitions d2 data r3 /\
    List.length (rows r1) + List.length (rows r2) + List.length (rows r3)
      + List.length (rows data) = List.length (rows dataset) /\
    (rows r1 <> [] -> rows r2 <> [] -> rows r3 <> [] ->
     exists removal_report,
       pipeline dataset seq_column length_column min_length
         = Ok (data, removal_report)) /\
    (forall data' removal_report,
       pipeline dataset seq_column length_column min_length
         = Ok (data', removal_report) ->
       data' = data /\
       List.length removal_report
         = List.length (rows r1) + List.length (rows r2)
           + List.length (rows r3) /\
       List.length removal_report + List.length (rows data')
         = List.length (rows dataset)).
Proof.
  intros WF.
  pose proof (pipeline_well_formed _ _ _ min_length WF) as Hp.
  pose proof (run_filters_well_formed _ _ _ min_length WF) as Hf.
  destruct WF as [Hs Hl Hstr Hint ND].
  set (d1 := no_N dataset). set (d2 := long_enough min_length d1).
  assert (ND1 : NoDup (map label (rows d1)))
    by (apply NoDup_labels_filter, ND).
  assert (ND2 : NoDup (map label (rows d2)))
    by (apply NoDup_labels_filter, ND1).
  assert (P1 : partitions dataset d1 (with_N dataset))
    by (apply (keep_partitions dataset (fun r => ambiguous (seq r))), ND).
  assert (P2 : partitions d1 d2 (too_short min_length d1))
    by (apply (keep_partitions d1 (fun r => short min_length (len r))), ND1).
  assert (P3 : partitions d2 (firsts d2) (repeats d2))
    by (apply firsts_partitions, ND2).
  assert (L : List.length (rows (with_N dataset))
              + List.length (rows (too_short min_length d1))
              + List.length (rows (repeats d2))
              + List.length (rows (firsts d2))
              = List.length (rows dataset)).
  { pose proof (partitions_length _ _ _ P1).
    pose proof (partitions_length _ _ _ P2).
    pose proof (partitions_length _ _ _ P3). lia. }
  exists d1, (with_N dataset), d2, (too_short min_length d1),
    (firsts d2), (repeats d2).
  split; [now rewrite filter_ambiguous_eq, Hs, Hstr |].
  split.
  { rewrite filter_length_eq.
    change (has_column d1 length_column) with (has_column dataset length_column).
    rewrite Hl.
    unfold d1, no_N, keep; cbn [rows].
    now rewrite (forallb_filter _ _ _ (is_int_comparable _ Hint)). }
  split.
  { rewrite filter_duplicate_eq.
    change (has_column d2 seq_column) with (has_column dataset seq_column).
    now rewrite Hs. }
  split; [exact Hf |].
  split; [exact P1 |]. split; [exact P2 |]. split; [exact P3 |].
  split; [exact L |].
  split.
  - intros N1 N2 N3.
    exists (final_report dataset min_length).
    rewrite Hp.
    replace (every_batch_has_rows dataset min_length) with true; [reflexivity |].
    symmetry; apply every_batch_has_rows_iff; auto.
  - intros data' removal_report Hok.
    destruct (pipeline_ok _ _ _ _ _ _ Hok) as (_ & _ & _ & _ & -> & ->).
    assert (R : List.length (final_report dataset min_length)
                = List.length (rows (with_N dataset))
                  + List.length (rows (too_short min_length d1))
                  + List.length (rows (repeats d2))).
    { unfold final_report; rewrite !length_app, !length_map.
      fold d1; fold d2; lia. }
    split; [reflexivity |]. split; [exact R |].
    rewrite R. change (final_kept dataset min_length) with (firsts d2). lia.
Qed.

(** ** C2: what the rows of the final kept table have in common *)

Lemma first_occurrence_filter (p : row -> bool) (t : list row) (r : row) :
  (forall r', In r' t -> seq r' = seq r -> p r' = true) ->
  first_occurrence (filter p t) r -> first_occurrence t r.
Proof.
  induction t as [| a t IH]; intros Hp [before [after [E F]]]; simpl in E.
  - destruct before; discriminate.
  - assert (Hp' : forall r', In r' t -> seq r' = seq r -> p r' = true)
      by (intros r' Hr'; apply Hp; now right).
    destruct (p a) eqn:Pa.
    + destruct before as [| b before]; simpl in E; injection E as Ea E.
      * subst a; exists [], t; split; [reflexivity | constructor].
      * subst b; inversion F as [| ? ? Fa F']; subst.
        destruct (IH Hp') as [before' [after' [E' F'']]].
        { exists before, after; split; assumption. }
        exists (a :: before'), after'; split; [now rewrite E' | now constructor].
    + destruct (IH Hp') as [before' [after' [E' F'']]].
      { exists before, after; split; assumption. }
      exists (a :: before'), after'; split; [now rewrite E' |].
      constructor; [| assumption].
      intros Es; rewrite (Hp a (or_introl eq_refl) Es) in Pa; discriminate.
Qed.

Lemma not_duplicated_first (seen : list cell) (t : list row) (r : row) :
  In r (select t (map negb (duplicated_from seen (map seq t)))) ->
  ~ In (seq r) seen /\ first_occurrence t r.
Proof.
  revert seen; induction t as [| a t IH]; intros seen H; simpl in H;
    [contradiction |].
  assert (Rest : In r (select t (map negb (duplicated_from (seq a :: seen)
                                             (map seq t)))) ->
                 ~ In (seq r) seen /\ first_occurrence (a :: t) r).
  { intros Hr; destruct (IH _ Hr) as [Hn [before [after [E F]]]]; split.
    - intros Hin; apply Hn; now right.
    - exists (a :: before), after; split; [now rewrite E |].
      constructor; [| assumption].
      intros Es; apply Hn; left; exact Es. }
  destruct (isin seen (seq a)) eqn:Seen; simpl in H.
  - now apply Rest.
  - destruct H as [-> | H]; [| now apply Rest].
    split.
    + intros Hin; apply isin_In in Hin; congruence.
    + exists [], t; split; [reflexivity | constructor].
Qed.

Lemma filter_swap {A : Type} (p q : A -> bool) (l : list A) :
  filter p (filter q l) = filter q (filter p l).
Proof.
  induction l as [| a l IH]; simpl; [reflexivity |].
  destruct (p a) eqn:Pa, (q a) eqn:Qa; simpl; rewrite ?Pa, ?Qa, IH; reflexivity.
Qed.

Lemma final_kept_in (dataset : DataFrame) (min_length : Z) (r : row) :
  In r (rows (final_kept dataset min_length)) ->
  In r (rows dataset) /\
  ambiguous (seq r) = false /\
  short min_length (len r) = false /\
  first_occurrence
    (filter (fun r' => negb (short min_length (len r'))) (rows dataset)) r.
Proof.
  unfold final_kept, firsts, loc, long_enough, no_N, keep; cbn [rows].
  intros H.
  pose proof (select_incl _ _ _ H) as Hin.
  apply filter_In in Hin; destruct Hin as [Hin Hlen].
  apply filter_In in Hin; destruct Hin as [Hin Hamb].
  apply negb_true_iff in Hlen, Hamb.
  repeat split; try assumption.
  apply not_duplicated_first in H; destruct H as [_ F].
  rewrite filter_swap in F.
  apply first_occurrence_filter in F; [exact F |].
  intros r' _ Es; rewrite Es; now apply negb_true_iff.
Qed.

(** C2, counterexample.  The rows ("ACGN", 4), ("ACGT", 2), ("ACGT", 4),
    ("ACGT", 4) with a threshold of 3: every filter removes one row, the
    script completes, and the kept row is the third row of the input, which
    is not the first row of the input with its sequence (the second row is,
    and it was removed as too short). *)
Lemma kept_row_not_first_in_input :
  well_formed later_copy_kept "sequence" "length" /\
  run_filters later_copy_kept "sequence" "length" 3
    = Ok (mkFrame ["sequence"; "length"] [mkRow 2 (CStr "ACGT") (CInt 4) []],
          [ (mkFrame ["sequence"; "length"]
               [mkRow 0 (CStr "ACGN") (CInt 4) []], "ambiguous_N");
            (mkFrame ["sequence"; "length"]
               [mkRow 1 (CStr "ACGT") (CInt 2) []], "short_length");
            (mkFrame ["sequence"; "length"]
               [mkRow 3 (CStr "ACGT") (CInt 4) []], "duplicate") ]) /\
  fst (run later_copy_kept "sequence" "length" 3) = Ok tt /\
  ~ kept_rows_first_in_input later_copy_kept "sequence" "length" 3.
Proof.
  split; [table_ok |].
  split; [reflexivity |].
  split; [reflexivity |].
  intros H.
  destruct (H _ _ eq_refl (mkRow 2 (CStr "ACGT") (CInt 4) [])
              (or_introl eq_refl))
    as [_ [_ [before [after [E F]]]]].
  destruct before as [| b0 before]; simpl in E; [discriminate |].
  injection E as Eb0 E; subst b0.
  destruct before as [| b1 before]; simpl in E; [discriminate |].
  injection E as Eb1 E; subst b1.
  inversion F as [| ? ? _ F']; subst.
  inversion F' as [| ? ? Fa _]; subst; now apply Fa.
Qed.

(** C2, amended.  On a well-formed table the three filters run to the end,
    and every row of the final kept table has a sequence without ['N'], a
    length value of at least [min_length], and is the first row with its
    sequence among the rows of the input whose length value is not below
    [min_length]; it is the first row with its sequence in the whole input
    whenever rows with equal sequences carry equal length values. *)
Theorem kept_rows_clean_long_and_first
  (dataset : DataFrame) (seq_column length_column : string) (min_length : Z) :
  well_formed dataset seq_column length_column ->
  exists data removal_records,
    run_filters dataset seq_column length_column min_length
      = Ok (data, removal_records) /\
    forall r, In r (rows data) ->
      (exists s, seq r = CStr s /\ count "N"%char s = 0) /\
      (exists z, len r = CInt z /\ (min_length <= z)%Z) /\
      first_occurrence
        (filter (fun r' => negb (short min_length (len r'))) (rows dataset)) r /\
      ((forall a b, In a (rows dataset) -> In b (rows dataset) ->
                    seq a = seq b -> len a = len b) ->
       first_occurrence (rows dataset) r).
Proof.
  intros WF.
  exists (final_kept dataset min_length), (batches dataset min_length).
  split; [now apply run_filters_well_formed |].
  destruct WF as [_ _ Hstr Hint _].
  intros r Hr; apply final_kept_in in Hr.
  destruct Hr as [Hin [Hamb [Hlen F]]].
  rewrite forallb_forall in Hstr, Hint.
  specialize (Hstr r Hin); specialize (Hint r Hin).
  repeat split.
  - destruct (seq r) as [s | |]; try discriminate.
    exists s; split; [reflexivity |].
    unfold ambiguous in Hamb; apply Nat.leb_gt in Hamb; lia.
  - destruct (len r) as [| z |]; try discriminate.
    exists z; split; [reflexivity |].
    unfold short in Hlen; now apply Z.ltb_ge in Hlen.
  - exact F.
  - intros Same; apply first_occurrence_filter in F; [exact F |].
    intros r' Hr' Es; rewrite (Same r' r Hr' Hin Es), Hlen; reflexivity.
Qed.

(** ** The script in closed form *)

Lemma main_eq (dataset_read : result DataFrame)
  (seq_column length_column : string) (min_length_read : result Z) (d : disk) :
  main dataset_read seq_column length_column min_length_read d =
  match dataset_read with
  | Raise e => (Raise e, d)
  | Ok dataset =>
    match min_length_read with
    | Raise e => (Raise e, d)
    | Ok min_length =>
      match pipeline dataset seq_column length_column min_length with
      | Raise e => (Raise e, d)
      | Ok (data, removal_report) =>
        let removed_rows := List.length removal_report in
        match true_div removed_rows (List.length (rows dataset)) with
        | Raise e => (Raise e, d)
        | Ok ratio =>
          (Ok tt,
           (d ++ [removal_file removal_report])
           ++ [metrics_file
                 (metrics_summary data length_column removed_rows
                    (ratio * 100)%Q
                    (value_counts (map reason_removed removal_report)))])
        end
      end
    end
  end.
Proof.
  unfold main, io_bind, lift, to_csv.
  destruct dataset_read as [dataset | e]; [| reflexivity].
  destruct min_length_read as [min_length | e]; [| reflexivity].
  destruct (pipeline dataset seq_column length_column min_length)
    as [[data removal_report] | e]; [| reflexivity].
  destruct (true_div _ _); reflexivity.
Qed.

(** ** C3: the four-row scenario *)

(** C3.  On the table ("ACGT",4), ("ACGN",4), ("AC",2), ("ACGT",4) with
    [min_length = 3] the filters remove the row ACGN as ambiguous, the row AC
    as short and the second row ACGT (label 3) as duplicate; the removal
    report written to disk has these three rows in this order, and the final
    kept table is the single row ("ACGT",4). *)
Theorem scenario_A_reports :
  run_filters scenario_A "sequence" "length" 3 =
    Ok (mkFrame ["sequence"; "length"] [mkRow 0 (CStr "ACGT") (CInt 4) []],
        [ (mkFrame ["sequence"; "length"]
             [mkRow 1 (CStr "ACGN") (CInt 4) []], "ambiguous_N");
          (mkFrame ["sequence"; "length"]
             [mkRow 2 (CStr "AC") (CInt 2) []], "short_length");
          (mkFrame ["sequence"; "length"]
             [mkRow 3 (CStr "ACGT") (CInt 4) []], "duplicate") ]) /\
  pipeline scenario_A "sequence" "length" 3 =
    Ok (mkFrame ["sequence"; "length"] [mkRow 0 (CStr "ACGT") (CInt 4) []],
        [ mkRemoval (CStr "ACGN") (CInt 4) "ambiguous_N";
          mkRemoval (CStr "AC") (CInt 2) "short_length";
          mkRemoval (CStr "ACGT") (CInt 4) "duplicate" ]) /\
  exists summary_data,
    run scenario_A "sequence" "length" 3 =
      (Ok tt,
       [ removal_file
           [ mkRemoval (CStr "ACGN") (CInt 4) "ambiguous_N";
             mkRemoval (CStr "AC") (CInt 2) "short_length";
             mkRemoval (CStr "ACGT") (CInt 4) "duplicate" ];
         metrics_file summary_data ]).
Proof.
  split; [reflexivity |]. split; [reflexivity |].
  eexists; unfold run; rewrite main_eq; reflexivity.
Qed.

(** ** C10: the empty table *)

(** C10, counterexample.  On the table without rows (header sequence,
    length) the script stops with the [ValueError] of line 87, at the first
    removed batch, and not with a division by zero: line 97 is not
    reached. *)
Lemma empty_table_raises_before_division :
  pipeline no_rows "sequence" "length" 3 = Raise ValueError /\
  run no_rows "sequence" "length" 3 = (Raise ValueError, []) /\
  fst (run no_rows "sequence" "length" 3) <> Raise ZeroDivisionError.
Proof.
  split; [reflexivity |]. split; [reflexivity |]. discriminate.
Qed.

(** C10, amended.  On a table with no row (its header holding both
    designated columns) each of the three filters returns an empty kept and
    an empty removed table without error; the labelling loop then raises
    [ValueError] on the first batch, so the script stops before the division
    of line 97 (which has no guard against a zero row count) and writes no
    file, whatever the working directory. *)
Theorem empty_table_stops_at_labelling
  (header : list string) (seq_column length_column : string) (min_length : Z) :
  has_column (mkFrame header []) seq_column = true ->
  has_column (mkFrame header []) length_column = true ->
  let empty := mkFrame header [] in
  filter_ambiguous empty seq_column = Ok (empty, empty, "ambiguous_N") /\
  filter_length empty length_column min_length
    = Ok (empty, empty, "short_length") /\
  filter_duplicate empty seq_column = Ok (empty, empty, "duplicate") /\
  label_removed seq_column length_column (empty, "ambiguous_N")
    = Raise ValueError /\
  pipeline empty seq_column length_column min_length = Raise ValueError /\
  run empty seq_column length_column min_length = (Raise ValueError, []) /\
  (forall env,
     script env (Ok empty) seq_column length_column (Ok min_length) []
       = (Raise ValueError, [])) /\
  true_div 0 (List.length (rows empty)) = Raise ZeroDivisionError.
Proof.
  intros Hs Hl empty.
  assert (Hp : pipeline empty seq_column length_column min_length
               = Raise ValueError).
  { rewrite pipeline_eq; subst empty; now rewrite Hs, Hl. }
  repeat split.
  - unfold filter_ambiguous, column; subst empty; now rewrite Hs.
  - unfold filter_length, column; subst empty; now rewrite Hl.
  - unfold filter_duplicate, column; subst empty; now rewrite Hs.
  - unfold label_removed, column; subst empty; now rewrite Hs, Hl.
  - exact Hp.
  - unfold run; rewrite main_eq, Hp; reflexivity.
  - intros env; unfold script, io_bind, lift; now rewrite Hp.
Qed.

(** ** C8: what a failing run leaves on disk *)

Lemma charts_written (env : environment) (data : DataFrame)
  (removed_reason_count : list (string * nat)) (d d' : disk)
  (res : result unit) :
  charts env data removed_reason_count d = (res, d') ->
  exists k,
    d' = d ++ firstn k (chart_files data removed_reason_count) /\
    match res with Ok _ => k = 3 | Raise _ => k < 3 end.
Proof.
  unfold charts, io_bind, lift, write, chart_files.
  destruct (draw env (length_chart data)) as [[] | e1];
    [| intros [= <- <-]; exists 0; chart_prefix].
  destruct (writable env "Sequence_length_distribution.png");
    [| intros [= <- <-]; exists 0; chart_prefix].
  destruct (draw env (GC_chart data)) as [[] | e2];
    [| intros [= <- <-]; exists 1; chart_prefix].
  destruct (writable env "gc_base_proportion.png");
    [| intros [= <- <-]; exists 1; chart_prefix].
  destruct (draw env (reason_chart removed_reason_count)) as [[] | e3];
    [| intros [= <- <-]; exists 2; chart_prefix].
  destruct (writable env "Sequence_removal_reason.png");
    intros [= <- <-]; [exists 3 | exists 2]; chart_prefix.
Qed.

Lemma script_eq (env : environment) (dataset_read : result DataFrame)
  (seq_column length_column : string) (min_length_read : result Z) (d : disk) :
  script env dataset_read seq_column length_column min_length_read d =
  match dataset_read with
  | Raise e => (Raise e, d)
  | Ok dataset =>
    match min_length_read with
    | Raise e => (Raise e, d)
    | Ok min_length =>
      match pipeline dataset seq_column length_column min_length with
      | Raise e => (Raise e, d)
      | Ok (data, removal_report) =>
        let removed_rows := List.length removal_report in
        let removed_reason_count :=
          value_counts (map reason_removed removal_report) in
        match true_div removed_rows (List.length (rows dataset)) with
        | Raise e => (Raise e, d)
        | Ok ratio =>
          if writable env "QC_removal_report.tsv" then
            if writable env "QC_metrics_report.csv" then
              charts env data removed_reason_count
                ((d ++ [removal_file removal_report])
                 ++ [metrics_file
                       (metrics_summary data length_column removed_rows
                          (ratio * 100)%Q removed_reason_count)])
            else (Raise OSError, d ++ [removal_file removal_report])
          else (Raise OSError, d)
        end
      end
    end
  end.
Proof.
  unfold script, io_bind, lift, write.
  destruct dataset_read as [dataset | e]; [| reflexivity].
  destruct min_length_read as [min_length | e]; [| reflexivity].
  destruct (pipeline dataset seq_column length_column min_length)
    as [[data removal_report] | e]; [| reflexivity].
  destruct (true_div _ _); [| reflexivity].
  destruct (writable env "QC_removal_report.tsv"); [| reflexivity].
  destruct (writable env "QC_metrics_report.csv"); reflexivity.
Qed.

(** C8, counterexample.  Scenario A in a working directory where
    [QC_metrics_report.csv] cannot be written: the run does not complete
    ([to_csv] raises at line 136), and [QC_removal_report.tsv], written at
    line 103, stays on disk. *)
Lemma failed_run_leaves_removal_report :
  script metrics_report_refused (Ok scenario_A) "sequence" "length" (Ok 3%Z) []
    = (Raise OSError,
       [ removal_file
           [ mkRemoval (CStr "ACGN") (CInt 4) "ambiguous_N";
             mkRemoval (CStr "AC") (CInt 2) "short_length";
             mkRemoval (CStr "ACGT") (CInt 4) "duplicate" ] ]) /\
  ~ no_partial_output metrics_report_refused (Ok scenario_A)
      "sequence" "length" (Ok 3%Z).
Proof.
  assert (E : script metrics_report_refused (Ok scenario_A)
                "sequence" "length" (Ok 3%Z) []
              = (Raise OSError,
                 [ removal_file
                     [ mkRemoval (CStr "ACGN") (CInt 4) "ambiguous_N";
                       mkRemoval (CStr "AC") (CInt 2) "short_length";
                       mkRemoval (CStr "ACGT") (CInt 4) "duplicate" ] ]))
    by reflexivity.
  split; [exact E |].
  intros H.
  destruct (H _ _ E _ _ (or_introl eq_refl)) as [Hname _].
  now apply Hname.
Qed.

(** C8, amended.  A run that fails does so in one of two ways.  Either it
    stops before anything is written: the input cannot be read, the threshold
    is not an integer, a designated column is missing, a sequence is not a
    string, a length cannot be compared, a removed batch has no row; then no
    file is written.  Or the table goes through, and a file cannot be
    written or a chart cannot be drawn; then the files written before the
    failure stay on disk, in the order removal report, metrics report,
    length histogram, GC histogram, pie chart, and the removal report is
    among them unless it is the file that could not be written. *)
Theorem failed_run_keeps_files_written_so_far
  (env : environment) (dataset_read : result DataFrame)
  (seq_column length_column : string) (min_length_read : result Z)
  (e : exn) (written : disk) :
  script env dataset_read seq_column length_column min_length_read []
    = (Raise e, written) ->
  (main dataset_read seq_column length_column min_length_read []
     = (Raise e, []) /\
   written = []) \/
  (exists dataset min_length data removal_report summary_data k,
     dataset_read = Ok dataset /\
     min_length_read = Ok min_length /\
     pipeline dataset seq_column length_column min_length
       = Ok (data, removal_report) /\
     main dataset_read seq_column length_column min_length_read []
       = (Ok tt, [removal_file removal_report; metrics_file summary_data]) /\
     k < 5 /\
     written
       = firstn k
           ([removal_file removal_report; metrics_file summary_data]
            ++ chart_files data
                 (value_counts (map reason_removed removal_report))) /\
     (k = 0 <-> writable env "QC_removal_report.tsv" = false)).
Proof.
  rewrite script_eq, main_eq.
  destruct dataset_read as [dataset | e1];
    [| intros [= <- <-]; left; split; reflexivity].
  destruct min_length_read as [min_length | e2];
    [| intros [= <- <-]; left; split; reflexivity].
  destruct (pipeline dataset seq_column length_column min_length)
    as [[data removal_report] | e3] eqn:Hp;
    [| intros [= <- <-]; left; split; reflexivity].
  cbv zeta.
  destruct (true_div _ _) as [ratio | e4];
    [| intros [= <- <-]; left; split; reflexivity].
  intros H; right.
  exists dataset, min_length, data, removal_report.
  eexists.
  destruct (writable env "QC_removal_report.tsv") eqn:W1.
  - destruct (writable env "QC_metrics_report.csv") eqn:W2.
    + apply charts_written in H; destruct H as (k & -> & Hk).
      cbv iota in Hk.
      exists (2 + k); repeat split; try exact Hp; try reflexivity; try lia;
        intros; (lia || discriminate).
    + injection H as _ <-.
      exists 1; repeat split; try exact Hp; try reflexivity; try lia;
        intros; (lia || discriminate).
  - injection H as _ <-.
    exists 0; repeat split; try exact Hp; try reflexivity; lia.
Qed.

(** ** Runs that complete *)

Lemma true_div_ok (a b : nat) :
  b <> 0 -> true_div a b = Ok (of_nat a / of_nat b)%Q.
Proof.
  intros Hb; unfold true_div; destruct (Nat.eqb_spec b 0); [contradiction |].
  reflexivity.
Qed.

Lemma run_ok (dataset : DataFrame) (seq_column length_column : string)
  (min_length : Z) (data : DataFrame) (removal_report : list removal_row) :
  pipeline dataset seq_column length_column min_length
    = Ok (data, removal_report) ->
  rows dataset <> [] ->
  run dataset seq_column length_column min_length =
  (Ok tt,
   [ removal_file removal_report;
     metrics_file
       (metrics_summary data length_column (List.length removal_report)
          (of_nat (List.length removal_report)
           / of_nat (List.length (rows dataset)) * 100)%Q
          (value_counts (map reason_removed removal_report))) ]).
Proof.
  intros Hp Hne; unfold run; rewrite main_eq, Hp; cbv zeta.
  rewrite true_div_ok; [reflexivity |].
  destruct (rows dataset); [contradiction | discriminate].
Qed.

Lemma run_completed (dataset : DataFrame) (seq_column length_column : string)
  (min_length : Z) (written : disk) :
  run dataset seq_column length_column min_length = (Ok tt, written) ->
  exists data removal_report,
    pipeline dataset seq_column length_column min_length
      = Ok (data, removal_report) /\
    rows dataset <> [].
Proof.
  unfold run; rewrite main_eq.
  destruct (pipeline dataset seq_column length_column min_length)
    as [[data removal_report] | e]; [| discriminate].
  cbv zeta; unfold true_div.
  destruct (rows dataset) as [| r rs]; simpl; [discriminate |].
  intros _; exists data, removal_report; split; [reflexivity | discriminate].
Qed.

Lemma metric_removed_rows (data : DataFrame) (length_column : string)
  (removed_rows : nat) (fraction_rows : Q) (counts : list (string * nat)) :
  metric "removed_rows"
    (metrics_summary data length_column removed_rows fraction_rows counts)
  = Some (Num (of_nat removed_rows)).
Proof. reflexivity. Qed.


(** ** C9: the fraction of removed rows *)


(** ** C7: one retained row *)






(** ** C5: GC content of one sequence *)


Lemma of_nat_nonzero (n : nat) : n <> 0 -> ~ (of_nat n == 0)%Q.
Proof.
  intros Hn E; unfold of_nat, Qeq in E; simpl in E; lia.
Qed.


(** ** C6: a second pass removes nothing *)

Lemma filter_all {A : Type} (p : A -> bool) (l : list A) :
  forallb p l = true -> filter p l = l.
Proof.
  induction l as [| a l IH]; simpl; [reflexivity |].
  intros H; apply andb_true_iff in H; destruct H as [Ha Hl].
  now rewrite Ha, IH.
Qed.

Lemma filter_none {A : Type} (p : A -> bool) (l : list A) :
  forallb (fun a => negb (p a)) l = true -> filter p l = [].
Proof.
  induction l as [| a l IH]; simpl; [reflexivity |].
  intros H; apply andb_true_iff in H; destruct H as [Ha Hl].
  apply negb_true_iff in Ha; now rewrite Ha, IH.
Qed.

Lemma isin_ext (seen seen' : list cell) (x : cell) :
  (forall y, In y seen <-> In y seen') -> isin seen x = isin seen' x.
Proof.
  intros H; destruct (isin seen x) eqn:E, (isin seen' x) eqn:E';
    try reflexivity.
  - apply isin_In, H, isin_In in E; congruence.
  - apply isin_In, H, isin_In in E'; congruence.
Qed.

Lemma duplicated_from_ext (seen seen' col : list cell) :
  (forall y, In y seen <-> In y seen') ->
  duplicated_from seen col = duplicated_from seen' col.
Proof.
  revert seen seen'; induction col as [| x col IH]; intros seen seen' H;
    simpl; [reflexivity |].
  rewrite (isin_ext seen seen' x H); f_equal.
  apply IH; intros y; simpl; rewrite H; reflexivity.
Qed.

Lemma firsts_have_no_repeat (seen : list cell) (t : list row) :
  let t' := select t (map negb (duplicated_from seen (map seq t))) in
  duplicated_from seen (map seq t') = map (fun _ => false) t'.
Proof.
  revert seen; induction t as [| a t IH]; intros seen; simpl; [reflexivity |].
  destruct (isin seen (seq a)) eqn:Seen; simpl.
  - rewrite <- (IH (seq a :: seen)).
    apply duplicated_from_ext; intros y; simpl; split; [now right |].
    intros [<- | Hy]; [now apply isin_In | exact Hy].
  - rewrite Seen; f_equal; apply IH.
Qed.

Lemma select_all (t : list row) :
  select t (map negb (map (fun _ => false) t)) = t.
Proof. induction t as [| a t IH]; simpl; [reflexivity | now rewrite IH]. Qed.

Lemma select_nothing (t : list row) :
  select t (map (fun _ => false) t) = [].
Proof. induction t as [| a t IH]; simpl; [reflexivity | exact IH]. Qed.

(** C6.  When the three filters (ambiguous, length, duplicate) have run on a
    table and left [data], running them on [data] with the same threshold
    succeeds, keeps [data] as it is and removes no row: the three removed
    batches of the second pass are empty.  (The labelling loop of line 87
    then raises on these empty batches.) *)
Theorem filters_idempotent
  (dataset : DataFrame) (seq_column length_column : string) (min_length : Z)
  (data : DataFrame) (removal_records : list (DataFrame * string)) :
  run_filters dataset seq_column length_column min_length
    = Ok (data, removal_records) ->
  run_filters data seq_column length_column min_length
    = Ok (data, [ (mkFrame (columns data) [], "ambiguous_N");
                  (mkFrame (columns data) [], "short_length");
                  (mkFrame (columns data) [], "duplicate") ]) /\
  pipeline data seq_column length_column min_length = Raise ValueError.
Proof.
  intros Hp.
  destruct (run_filters_ok _ _ _ _ _ _ Hp) as (Hs & Hl & Hstr & Hcmp & -> & _).
  set (data := final_kept dataset min_length).
  assert (Hin : forall r, In r (rows data) ->
            is_str (seq r) = true /\ comparable (len r) = true /\
            negb (ambiguous (seq r)) = true /\
            negb (short min_length (len r)) = true).
  { intros r Hr.
    assert (Hn : In r (rows (no_N dataset))).
    { unfold data, final_kept, firsts, loc, long_enough, keep in Hr;
        cbn [rows] in Hr.
      apply select_incl, filter_In in Hr; apply Hr. }
    apply final_kept_in in Hr; destruct Hr as (Hd & Ha & Hsh & _).
    rewrite forallb_forall in Hstr, Hcmp.
    rewrite Ha, Hsh; auto. }
  assert (H1 : rows (no_N data) = rows data).
  { unfold no_N, keep; cbn [rows]; apply filter_all, forallb_forall.
    intros r Hr; apply Hin, Hr. }
  assert (E1 : no_N data = data).
  { unfold no_N, keep in *; cbn [rows] in H1; rewrite H1; now destruct data. }
  assert (R1 : with_N data = mkFrame (columns data) []).
  { unfold with_N, keep; f_equal; apply filter_none, forallb_forall.
    intros r Hr; apply Hin, Hr. }
  assert (E2 : long_enough min_length data = data).
  { unfold long_enough, keep.
    rewrite filter_all; [now destruct data |].
    apply forallb_forall; intros r Hr; apply Hin, Hr. }
  assert (R2 : too_short min_length data = mkFrame (columns data) []).
  { unfold too_short, keep; f_equal; apply filter_none, forallb_forall.
    intros r Hr; apply Hin, Hr. }
  assert (D : duplicated (map seq (rows data))
              = map (fun _ => false) (rows data)).
  { unfold data, final_kept, firsts, loc, duplicated; cbn [rows].
    apply firsts_have_no_repeat. }
  assert (E3 : firsts data = data).
  { unfold firsts, loc; rewrite D, select_all; now destruct data. }
  assert (R3 : repeats data = mkFrame (columns data) []).
  { unfold repeats, loc; now rewrite D, select_nothing. }
  assert (Hs' : has_column data seq_column = true) by exact Hs.
  assert (Hl' : has_column data length_column = true) by exact Hl.
  assert (Hstr' : forallb (fun r => is_str (seq r)) (rows data) = true)
    by (apply forallb_forall; intros r Hr; apply Hin, Hr).
  assert (Hcmp' : forallb (fun r => comparable (len r)) (rows data) = true)
    by (apply forallb_forall; intros r Hr; apply Hin, Hr).
  split.
  - rewrite run_filters_eq, Hs', Hl', Hstr', H1, Hcmp'.
    unfold final_kept, batches.
    rewrite !E1, !E2, E3, R1, R2, R3; reflexivity.
  - rewrite pipeline_eq, Hs', Hl', Hstr', H1, Hcmp'.
    unfold every_batch_has_rows, batches.
    rewrite R1; reflexivity.
Qed.

(** ** C4: the per-reason entries of the metrics report *)

Lemma count_up_new (key : string) (counts : list (string * nat)) :
  ~ In key (map fst counts) -> count_up key counts = counts ++ [(key, 1)].
Proof.
  induction counts as [| [k n] counts IH]; simpl; intros H; [reflexivity |].
  destruct (String.eqb_spec k key) as [-> | Hk]; [exfalso; auto |].
  rewrite IH; auto.
Qed.

Lemma count_up_last (key : string) (counts : list (string * nat)) (n : nat) :
  ~ In key (map fst counts) ->
  count_up key (counts ++ [(key, n)]) = counts ++ [(key, S n)].
Proof.
  induction counts as [| [k m] counts IH]; simpl; intros H.
  - now rewrite String.eqb_refl.
  - destruct (String.eqb_spec k key) as [-> | Hk]; [exfalso; auto |].
    rewrite IH; auto.
Qed.

Lemma tally_more (key : string) (counts : list (string * nat)) (k n : nat) :
  ~ In key (map fst counts) ->
  fold_left (fun counts key => count_up key counts) (repeat key n)
            (counts ++ [(key, k)])
  = counts ++ [(key, k + n)].
Proof.
  intros H; revert k; induction n as [| n IH]; intros k; simpl.
  - now rewrite Nat.add_0_r.
  - rewrite count_up_last by assumption; rewrite IH; do 3 f_equal; lia.
Qed.

Lemma tally_block (key : string) (counts : list (string * nat)) (n : nat) :
  ~ In key (map fst counts) ->
  fold_left (fun counts key => count_up key counts) (repeat key n) counts
  = if n =? 0 then counts else counts ++ [(key, n)].
Proof.
  intros H; destruct n as [| n]; simpl; [reflexivity |].
  rewrite count_up_new by assumption.
  now rewrite tally_more.
Qed.

Lemma count_occ_repeat_if (x y : string) (n : nat) :
  count_occ string_dec (repeat y n) x = if String.eqb x y then n else 0.
Proof.
  destruct (String.eqb_spec x y) as [E | E].
  - now apply count_occ_repeat_eq.
  - now apply count_occ_repeat_neq.
Qed.

Lemma tally_reasons (n1 n2 n3 : nat) :
  tally (reasons_column n1 n2 n3) =
  filter (fun e => negb (snd e =? 0))
    [("ambiguous_N", n1); ("short_length", n2); ("duplicate", n3)].
Proof.
  unfold tally, reasons_column; rewrite !fold_left_app.
  rewrite (tally_block "ambiguous_N" []) by (simpl; tauto).
  destruct n1 as [| n1]; cbn [Nat.eqb app].
  - rewrite (tally_block "short_length" []) by (simpl; tauto).
    destruct n2 as [| n2]; cbn [Nat.eqb app].
    + rewrite (tally_block "duplicate" []) by (simpl; tauto).
      destruct n3; reflexivity.
    + rewrite (tally_block "duplicate" [("short_length", S n2)])
        by (simpl; intuition discriminate).
      destruct n3; reflexivity.
  - rewrite (tally_block "short_length" [("ambiguous_N", S n1)])
      by (simpl; intuition discriminate).
    destruct n2 as [| n2]; cbn [Nat.eqb app].
    + rewrite (tally_block "duplicate" [("ambiguous_N", S n1)])
        by (simpl; intuition discriminate).
      destruct n3; reflexivity.
    + rewrite (tally_block "duplicate"
                 [("ambiguous_N", S n1); ("short_length", S n2)])
        by (simpl; intuition discriminate).
      destruct n3; reflexivity.
Qed.

Lemma count_occ_reasons (n1 n2 n3 : nat) (reason : string) :
  count_occ string_dec (reasons_column n1 n2 n3) reason =
  (if String.eqb reason "ambiguous_N" then n1 else 0)
  + (if String.eqb reason "short_length" then n2 else 0)
  + (if String.eqb reason "duplicate" then n3 else 0).
Proof.
  unfold reasons_column.
  rewrite !count_occ_app, !count_occ_repeat_if; lia.
Qed.

Lemma value_counts_reasons (n1 n2 n3 : nat) :
  let counts := value_counts (reasons_column n1 n2 n3) in
  (forall reason n,
     In (reason, n) counts <->
     1 <= n /\ n = count_occ string_dec (reasons_column n1 n2 n3) reason) /\
  NoDup (map fst counts) /\
  StronglySorted listed_before counts.
Proof.
  unfold value_counts; rewrite tally_reasons.
  assert (Hcount := count_occ_reasons n1 n2 n3).
  destruct n1 as [| n1], n2 as [| n2], n3 as [| n3];
    leb_cases; (split; [| split]);
    try (repeat constructor; simpl; intuition discriminate; fail);
    try (repeat (apply SSorted_cons || apply SSorted_nil
                 || apply Forall_cons || apply Forall_nil);
         unfold listed_before, rank; simpl; lia).
  all: intros reason n; rewrite Hcount; split.
  all: try (simpl; intros Hin; repeat destruct Hin as [Hin | Hin];
            try contradiction; injection Hin as <- <-; simpl; lia).
  all: intros [Hn ->].
  all: destruct (String.eqb_spec reason "ambiguous_N") as [E | E];
    [subst reason; simpl in *; solve [lia | pick_entry] | clear E].
  all: destruct (String.eqb_spec reason "short_length") as [E | E];
    [subst reason; simpl in *; solve [lia | pick_entry] | clear E].
  all: destruct (String.eqb_spec reason "duplicate") as [E | E];
    [subst reason; simpl in *; solve [lia | pick_entry] | clear E].
  all: simpl in *; lia.
Qed.

Lemma reasons_of_tagged (reason : string) (rs : list row) :
  map reason_removed (map (tag reason) rs) = repeat reason (List.length rs).
Proof. induction rs as [| r rs IH]; simpl; [reflexivity | now rewrite IH]. Qed.

Lemma reasons_of_final_report (dataset : DataFrame) (min_length : Z) :
  map reason_removed (final_report dataset min_length) =
  reasons_column
    (List.length (rows (with_N dataset)))
    (List.length (rows (too_short min_length (no_N dataset))))
    (List.length (rows (repeats (long_enough min_length (no_N dataset))))).
Proof.
  unfold final_report, reasons_column.
  now rewrite !map_app, !reasons_of_tagged.
Qed.

Lemma find_removed_entries (counts : list (string * nat)) (reason : string) :
  find (fun e => String.eqb (fst e) ("removed_" ++ reason)%string)
       (removed_entries counts)
  = match find (fun e => String.eqb (fst e) reason) counts with
    | Some e => Some (("removed_" ++ fst e)%string, Num (of_nat (snd e)))
    | None => None
    end.
Proof.
  induction counts as [| [k n] counts IH]; [reflexivity |].
  cbn [removed_entries map find fst snd].
  change (String.eqb ("removed_" ++ k) ("removed_" ++ reason))%string
    with (String.eqb k reason).
  destruct (String.eqb k reason); [reflexivity | exact IH].
Qed.

Lemma find_count (counts : list (string * nat)) (c : string -> nat)
  (reason : string) :
  (forall r n, In (r, n) counts <-> 1 <= n /\ n = c r) ->
  find (fun e => String.eqb (fst e) reason) counts
  = if c reason =? 0 then None else Some (reason, c reason).
Proof.
  intros H.
  destruct (find _ counts) as [[k n] |] eqn:F.
  - apply find_some in F; destruct F as [Hin E]; cbn [fst] in E.
    apply String.eqb_eq in E; subst k.
    apply H in Hin; destruct Hin as [Hn ->].
    destruct (Nat.eqb_spec (c reason) 0); [lia | reflexivity].
  - destruct (Nat.eqb_spec (c reason) 0) as [| Hc]; [reflexivity |].
    assert (Hin : In (reason, c reason) counts) by (apply H; split; lia).
    apply (find_none _ _ F) in Hin; cbn [fst] in Hin.
    now rewrite String.eqb_refl in Hin.
Qed.

Lemma metric_removed_reason (data : DataFrame) (length_column : string)
  (removed_rows : nat) (fraction_rows : Q) (counts : list (string * nat))
  (reason : string) :
  In reason ["ambiguous_N"; "short_length"; "duplicate"] ->
  metric ("removed_" ++ reason)
    (metrics_summary data length_column removed_rows fraction_rows counts)
  = match find (fun e => String.eqb (fst e) reason) counts with
    | Some e => Some (Num (of_nat (snd e)))
    | None => None
    end.
Proof.
  intros Hin.
  assert (E : metric ("removed_" ++ reason)
                (metrics_summary data length_column removed_rows
                   fraction_rows counts)
              = match find (fun e => String.eqb (fst e)
                                       ("removed_" ++ reason)%string)
                           (removed_entries counts) with
                | Some e => Some (snd e)
                | None => None
                end).
  { unfold metric, metrics_summary.
    repeat (destruct Hin as [<- | Hin]; [reflexivity |]).
    contradiction. }
  rewrite E, find_removed_entries.
  now destruct (find _ counts).
Qed.


(** ** The model on small inputs *)

Example value_counts_keeps_ties_in_order :
  value_counts ["short_length"; "duplicate"; "duplicate"; "ambiguous_N";
                "short_length"]
  = [("short_length", 2); ("duplicate", 2); ("ambiguous_N", 1)].
Proof. reflexivity. Qed.

Example GC_percentage_mixed_case :
  GC_percentage (CStr "ACgt") = Num (200 # 4).
Proof. reflexivity. Qed.

Example GC_percentage_missing : GC_percentage CNaN = NaN.
Proof. reflexivity. Qed.

Example duplicated_marks_later_rows :
  duplicated [CStr "A"; CStr "B"; CStr "A"; CStr "A"]
  = [false; false; true; true].
Proof. reflexivity. Qed.

Example length_on_string_raises :
  length_fail_list [CInt 5; CStr "x"] 3 = Raise TypeError.
Proof. reflexivity. Qed.

Example scenario_A_metrics :
  snd (run scenario_A "sequence" "length" 3) =
  [ removal_file
      [ mkRemoval (CStr "ACGN") (CInt 4) "ambiguous_N";
        mkRemoval (CStr "AC") (CInt 2) "short_length";
        mkRemoval (CStr "ACGT") (CInt 4) "duplicate" ];
    metrics_file
      [ ("min_length", Num 4); ("max_length", Num 4);
        ("mean_length", Num 4); ("median_length", Num 4);
        ("std_length", NaN);
        ("min_GC_percentage", Num (200 # 4));
        ("max_GC_percentage", Num (200 # 4));
        ("mean_GC_percentage", Num (200 # 4));
        ("median_GC_percentage", Num (200 # 4));
        ("std_GC_percentage", NaN);
        ("removed_rows", Num 3); ("fraction_rows", Num (300 # 4));
        ("removed_ambiguous_N", Num 1); ("removed_short_length", Num 1);
        ("removed_duplicate", Num 1) ] ].
Proof. reflexivity. Qed.

(** ** The theorems at concrete tables *)

(** C1 on scenario A. *)
Lemma removal_report_and_kept_cover_input_witness :
  well_formed scenario_A "sequence" "length" /\
  exists d1 r1 d2 r2 data r3,
    filter_ambiguous scenario_A "sequence" = Ok (d1, r1, "ambiguous_N") /\
    filter_length d1 "length" 3 = Ok (d2, r2, "short_length") /\
    filter_duplicate d2 "sequence" = Ok (data, r3, "duplicate") /\
    run_filters scenario_A "sequence" "length" 3
      = Ok (data, [(r1, "ambiguous_N"); (r2, "short_length");
                   (r3, "duplicate")]) /\
    partitions scenario_A d1 r1 /\
    partitions d1 d2 r2 /\
    partitions d2 data r3 /\
    List.length (rows r1) + List.length (rows r2) + List.length (rows r3)
      + List.length (rows data) = List.length (rows scenario_A) /\
    (rows r1 <> [] -> rows r2 <> [] -> rows r3 <> [] ->
     exists removal_report,
       pipeline scenario_A "sequence" "length" 3
         = Ok (data, removal_report)) /\
    (forall data' removal_report,
       pipeline scenario_A "sequence" "length" 3
         = Ok (data', removal_report) ->
       data' = data /\
       List.length removal_report
         = List.length (rows r1) + List.length (rows r2)
           + List.length (rows r3) /\
       List.length removal_report + List.length (rows data')
         = List.length (rows scenario_A)).
Proof.
  split; [table_ok |].
  apply (removal_report_and_kept_cover_input scenario_A "sequence" "length" 3).
  table_ok.
Defined.

(** C2 (amended) on the table of the counterexample. *)
Lemma kept_rows_clean_long_and_first_witness :
  well_formed later_copy_kept "sequence" "length" /\
  exists data removal_records,
    run_filters later_copy_kept "sequence" "length" 3
      = Ok (data, removal_records) /\
    forall r, In r (rows data) ->
      (exists s, seq r = CStr s /\ count "N"%char s = 0) /\
      (exists z, len r = CInt z /\ (3 <= z)%Z) /\
      first_occurrence
        (filter (fun r' => negb (short 3 (len r'))) (rows later_copy_kept)) r /\
      ((forall a b, In a (rows later_copy_kept) ->
                    In b (rows later_copy_kept) ->
                    seq a = seq b -> len a = len b) ->
       first_occurrence (rows later_copy_kept) r).
Proof.
  split; [table_ok |].
  apply (kept_rows_clean_long_and_first later_copy_kept "sequence" "length" 3).
  table_ok.
Defined.



(** C6 on scenario A. *)
Lemma filters_idempotent_witness :
  let data := mkFrame ["sequence"; "length"]
                [mkRow 0 (CStr "ACGT") (CInt 4) []] in
  let removal_records :=
    [ (mkFrame ["sequence"; "length"]
         [mkRow 1 (CStr "ACGN") (CInt 4) []], "ambiguous_N");
      (mkFrame ["sequence"; "length"]
         [mkRow 2 (CStr "AC") (CInt 2) []], "short_length");
      (mkFrame ["sequence"; "length"]
         [mkRow 3 (CStr "ACGT") (CInt 4) []], "duplicate") ] in
  run_filters scenario_A "sequence" "length" 3 = Ok (data, removal_records) /\
  run_filters data "sequence" "length" 3
    = Ok (data, [ (mkFrame (columns data) [], "ambiguous_N");
                  (mkFrame (columns data) [], "short_length");
                  (mkFrame (columns data) [], "duplicate") ]) /\
  pipeline data "sequence" "length" 3 = Raise ValueError.
Proof.
  intros data removal_records; split; [reflexivity |].
  apply (filters_idempotent scenario_A "sequence" "length" 3
           data removal_records).
  reflexivity.
Defined.


(** C8 (amended) on a table with a missing sequence, where [seq.count]
    raises before anything is written. *)
Lemma failed_run_keeps_files_written_so_far_witness :
  script obliging (Ok missing_sequence) "sequence" "length" (Ok 3%Z) []
    = (Raise AttributeError, []) /\
  ((main (Ok missing_sequence) "sequence" "length" (Ok 3%Z) []
      = (Raise AttributeError, []) /\
    @nil (string * file) = []) \/
   (exists dataset min_length data removal_report summary_data k,
      Ok missing_sequence = Ok dataset /\
      Ok 3%Z = Ok min_length /\
      pipeline dataset "sequence" "length" min_length
        = Ok (data, removal_report) /\
      main (Ok missing_sequence) "sequence" "length" (Ok 3%Z) []
        = (Ok tt, [removal_file removal_report; metrics_file summary_data]) /\
      k < 5 /\
      [] = firstn k
             ([removal_file removal_report; metrics_file summary_data]
              ++ chart_files data
                   (value_counts (map reason_removed removal_report))) /\
      (k = 0 <-> writable obliging "QC_removal_report.tsv" = false))).
Proof.
  split; [reflexivity |].
  apply (failed_run_keeps_files_written_so_far obliging (Ok missing_sequence)
           "sequence" "length" (Ok 3%Z) AttributeError []).
  reflexivity.
Defined.


(** C10 (amended) on the header sequence, length. *)
Lemma empty_table_stops_at_labelling_witness :
  let empty := mkFrame ["sequence"; "length"] [] in
  has_column empty "sequence" = true /\
  has_column empty "length" = true /\
  filter_ambiguous empty "sequence" = Ok (empty, empty, "ambiguous_N") /\
  filter_length empty "length" 3 = Ok (empty, empty, "short_length") /\
  filter_duplicate empty "sequence" = Ok (empty, empty, "duplicate") /\
  label_removed "sequence" "length" (empty, "ambiguous_N")
    = Raise ValueError /\
  pipeline empty "sequence" "length" 3 = Raise ValueError /\
  run empty "sequence" "length" 3 = (Raise ValueError, []) /\
  (forall env,
     script env (Ok empty) "sequence" "length" (Ok 3%Z) []
       = (Raise ValueError, [])) /\
  true_div 0 (List.length (rows empty)) = Raise ZeroDivisionError.
Proof.
  intros empty.
  split; [reflexivity |]. split; [reflexivity |].
  apply (empty_table_stops_at_labelling ["sequence"; "length"]
           "sequence" "length" 3); reflexivity.
Defined.

(** * Further properties of the script *)

(** ** Which exception, and when *)

Lemma forallb_false_exists {A : Type} (p : A -> bool) (l : list A) :
  forallb p l = false -> exists a, In a l /\ p a = false.
Proof.
  induction l as [| a l IH]; simpl; [discriminate |].
  destruct (p a) eqn:Pa; simpl.
  - intros H; destruct (IH H) as [b [Hb Pb]]; exists b; auto.
  - intros _; exists a; auto.
Qed.

(** X1.  The three filters (lines 72 to 77) run to the end exactly when both
    designated columns are in the header, every sequence is a string, and no
    row whose sequence is free of ['N'] holds a string as its length.  A
    string length on a row with an ['N'] does no harm: the row is gone before
    lengths are compared. *)
Theorem filters_succeed_iff
  (dataset : DataFrame) (seq_column length_column : string) (min_length : Z) :
  (exists data removal_records,
     run_filters dataset seq_column length_column min_length
       = Ok (data, removal_records)) <->
  has_column dataset seq_column = true /\
  has_column dataset length_column = true /\
  (forall r, In r (rows dataset) -> exists s, seq r = CStr s) /\
  (forall r s, In r (rows dataset) -> seq r = CStr s ->
               count "N"%char s = 0 -> forall t, len r <> CStr t).
Proof.
  split.
  - intros (data & removal_records & Hp).
    destruct (run_filters_ok _ _ _ _ _ _ Hp) as (Hs & Hl & Hstr & Hcmp & _).
    rewrite forallb_forall in Hstr, Hcmp.
    repeat split; try assumption.
    + intros r Hr; specialize (Hstr r Hr).
      destruct (seq r) as [s | |]; try discriminate; now exists s.
    + intros r s Hr Es Hn t El.
      assert (Hin : In r (rows (no_N dataset))).
      { unfold no_N, keep; cbn [rows]; apply filter_In; split; [exact Hr |].
        rewrite Es; unfold ambiguous; rewrite Hn; reflexivity. }
      specialize (Hcmp r Hin); rewrite El in Hcmp; discriminate.
  - intros (Hs & Hl & Hstr & Hcmp).
    exists (final_kept dataset min_length), (batches dataset min_length).
    rewrite run_filters_eq, Hs, Hl.
    replace (forallb (fun r => is_str (seq r)) (rows dataset)) with true.
    2:{ symmetry; apply forallb_forall; intros r Hr.
        destruct (Hstr r Hr) as [s ->]; reflexivity. }
    replace (forallb (fun r => comparable (len r)) (rows (no_N dataset)))
      with true; [reflexivity |].
    symmetry; apply forallb_forall; intros r Hr.
    unfold no_N, keep in Hr; cbn [rows] in Hr.
    apply filter_In in Hr; destruct Hr as [Hr Hn].
    destruct (Hstr r Hr) as [s Es].
    rewrite Es in Hn; unfold ambiguous in Hn.
    apply negb_true_iff, Nat.leb_gt in Hn.
    destruct (len r) as [t | z |] eqn:El; try reflexivity.
    exfalso; apply (Hcmp r s Hr Es ltac:(lia) t El).
Qed.

(** X2.  The exception of a failing pipeline (lines 69 to 91), in the order
    the script meets them: [KeyError] for a missing sequence column; else
    [AttributeError] for a sequence that is not a string; else [KeyError] for
    a missing length column; else [TypeError] for a string length on a row
    free of ['N']; else, the filters having run to the end, [ValueError] for
    a removed batch without rows.  No other exception leaves the
    pipeline. *)
Theorem pipeline_exception
  (dataset : DataFrame) (seq_column length_column : string) (min_length : Z)
  (e : exn) :
  pipeline dataset seq_column length_column min_length = Raise e ->
  (e = KeyError /\ has_column dataset seq_column = false) \/
  (e = AttributeError /\ has_column dataset seq_column = true /\
   exists r, In r (rows dataset) /\ forall s, seq r <> CStr s) \/
  (e = KeyError /\ has_column dataset seq_column = true /\
   (forall r, In r (rows dataset) -> exists s, seq r = CStr s) /\
   has_column dataset length_column = false) \/
  (e = TypeError /\ has_column dataset seq_column = true /\
   has_column dataset length_column = true /\
   (forall r, In r (rows dataset) -> exists s, seq r = CStr s) /\
   exists r s t, In r (rows dataset) /\ seq r = CStr s /\
                 count "N"%char s = 0 /\ len r = CStr t) \/
  (e = ValueError /\
   exists data removal_records,
     run_filters dataset seq_column length_column min_length
       = Ok (data, removal_records) /\
     Exists (fun record => rows (fst record) = []) removal_records).
Proof.
  rewrite pipeline_eq, run_filters_eq.
  destruct (has_column dataset seq_column) eqn:Hs;
    [| intros [= <-]; left; auto].
  destruct (forallb _ (rows dataset)) eqn:Hstr.
  2:{ intros [= <-]; right; left; repeat split.
      apply forallb_false_exists in Hstr; destruct Hstr as [r [Hr Pr]].
      exists r; split; [exact Hr |]; intros s Es; rewrite Es in Pr;
        discriminate. }
  assert (Hall : forall r, In r (rows dataset) -> exists s, seq r = CStr s).
  { rewrite forallb_forall in Hstr; intros r Hr; specialize (Hstr r Hr).
    destruct (seq r) as [s | |]; try discriminate; now exists s. }
  destruct (has_column dataset length_column) eqn:Hl;
    [| intros [= <-]; right; right; left; auto].
  destruct (forallb _ (rows (no_N dataset))) eqn:Hcmp.
  - destruct (every_batch_has_rows dataset min_length) eqn:Hb; [discriminate |].
    intros [= <-]; right; right; right; right; split; [reflexivity |].
    exists (final_kept dataset min_length), (batches dataset min_length).
    split; [reflexivity |].
    apply Exists_exists.
    apply forallb_false_exists in Hb; destruct Hb as [record [Hin Hrec]].
    exists record; split; [exact Hin |].
    unfold has_rows in Hrec; destruct (rows (fst record));
      [reflexivity | discriminate].
  - intros [= <-]; right; right; right; left; repeat split; try assumption.
    apply forallb_false_exists in Hcmp; destruct Hcmp as [r [Hr Pr]].
    unfold no_N, keep in Hr; cbn [rows] in Hr.
    apply filter_In in Hr; destruct Hr as [Hr Hn].
    destruct (Hall r Hr) as [s Es].
    rewrite Es in Hn; unfold ambiguous in Hn.
    apply negb_true_iff, Nat.leb_gt in Hn.
    destruct (len r) as [t | z |] eqn:El; try discriminate.
    exists r, s, t; repeat split; try assumption; lia.
Qed.

(** ** The filters, row by row *)

Lemma ambiguous_true (x : cell) :
  ambiguous x = true -> exists s, x = CStr s /\ 1 <= count "N"%char s.
Proof.
  destruct x as [s | |]; try discriminate.
  intros H; exists s; split; [reflexivity | now apply Nat.leb_le].
Qed.

Lemma ambiguous_false (x : cell) :
  is_str x = true -> ambiguous x = false ->
  exists s, x = CStr s /\ count "N"%char s = 0.
Proof.
  destruct x as [s | |]; try discriminate.
  intros _ H; exists s; split; [reflexivity |].
  apply Nat.leb_gt in H; lia.
Qed.

Lemma short_true (min_length : Z) (x : cell) :
  short min_length x = true -> exists z, x = CInt z /\ (z < min_length)%Z.
Proof.
  destruct x as [| z |]; try discriminate.
  intros H; exists z; split; [reflexivity | now apply Z.ltb_lt].
Qed.

Lemma short_false (min_length : Z) (x : cell) :
  comparable x = true -> short min_length x = false ->
  x = CNaN \/ exists z, x = CInt z /\ (min_length <= z)%Z.
Proof.
  destruct x as [| z |]; try discriminate; [| now left].
  intros _ H; right; exists z; split; [reflexivity | now apply Z.ltb_ge].
Qed.

(** X3.  When [filter_ambiguous] returns, both tables carry the header of the
    input; a row is in the removed table exactly when it is a row of the
    input whose sequence holds at least one ['N'], and in the kept table
    exactly when it is a row of the input whose sequence holds none.  The
    membership test on values thus never takes a row without ['N']. *)
Theorem filter_ambiguous_rows
  (dataset : DataFrame) (seq_column : string)
  (dataset_clean removed_list : DataFrame) (removal_reason : string) :
  filter_ambiguous dataset seq_column
    = Ok (dataset_clean, removed_list, removal_reason) ->
  removal_reason = "ambiguous_N" /\
  columns dataset_clean = columns dataset /\
  columns removed_list = columns dataset /\
  (forall r, In r (rows removed_list) <->
     In r (rows dataset) /\
     exists s, seq r = CStr s /\ 1 <= count "N"%char s) /\
  (forall r, In r (rows dataset_clean) <->
     In r (rows dataset) /\
     exists s, seq r = CStr s /\ count "N"%char s = 0).
Proof.
  rewrite filter_ambiguous_eq.
  destruct (has_column dataset seq_column); [| discriminate].
  destruct (forallb _ (rows dataset)) eqn:Hstr; [| discriminate].
  intros [= <- <- <-].
  do 3 (split; [reflexivity |]).
  unfold keep; cbn [rows]; split; intros r; rewrite filter_In; split.
  - intros [Hr H]; split; [exact Hr |].
    destruct (seq r) as [s | |]; try discriminate.
    exists s; split; [reflexivity | now apply Nat.leb_le].
  - intros [Hr (s & Es & Hn)]; split; [exact Hr |].
    rewrite Es; now apply Nat.leb_le.
  - intros [Hr H]; split; [exact Hr |].
    rewrite forallb_forall in Hstr; specialize (Hstr r Hr).
    destruct (seq r) as [s | |]; try discriminate.
    exists s; split; [reflexivity |].
    apply negb_true_iff, Nat.leb_gt in H; lia.
  - intros [Hr (s & Es & Hn)]; split; [exact Hr |].
    rewrite Es; unfold ambiguous; rewrite Hn; reflexivity.
Qed.

(** X4.  When [filter_length] returns, a row is removed exactly when its
    length is an integer below [min_length]; a row is kept exactly when its
    length is an integer of at least [min_length] or is missing.  A row with
    a missing length is therefore kept whatever the threshold. *)
Theorem filter_length_rows
  (dataset : DataFrame) (length_column : string) (min_length : Z)
  (dataset_clean removed_list : DataFrame) (removal_reason : string) :
  filter_length dataset length_column min_length
    = Ok (dataset_clean, removed_list, removal_reason) ->
  removal_reason = "short_length" /\
  columns dataset_clean = columns dataset /\
  columns removed_list = columns dataset /\
  (forall r, In r (rows removed_list) <->
     In r (rows dataset) /\
     exists z, len r = CInt z /\ (z < min_length)%Z) /\
  (forall r, In r (rows dataset_clean) <->
     In r (rows dataset) /\
     (len r = CNaN \/ exists z, len r = CInt z /\ (min_length <= z)%Z)).
Proof.
  rewrite filter_length_eq.
  destruct (has_column dataset length_column); [| discriminate].
  destruct (forallb _ (rows dataset)) eqn:Hcmp; [| discriminate].
  intros [= <- <- <-].
  do 3 (split; [reflexivity |]).
  unfold keep; cbn [rows]; split; intros r; rewrite filter_In; split.
  - intros [Hr H]; split; [exact Hr |].
    destruct (len r) as [| z |]; try discriminate.
    exists z; split; [reflexivity | now apply Z.ltb_lt].
  - intros [Hr (z & Ez & Hz)]; split; [exact Hr |].
    rewrite Ez; now apply Z.ltb_lt.
  - intros [Hr H]; split; [exact Hr |].
    rewrite forallb_forall in Hcmp; specialize (Hcmp r Hr).
    destruct (len r) as [| z |]; try discriminate; [right | now left].
    exists z; split; [reflexivity |].
    now apply negb_true_iff, Z.ltb_ge in H.
  - intros [Hr [En | (z & Ez & Hz)]]; (split; [exact Hr |]).
    + now rewrite En.
    + rewrite Ez; now apply negb_true_iff, Z.ltb_ge.
Qed.

Lemma firsts_from_spec (seen : list cell) (t : list row) :
  let kept := select t (map negb (duplicated_from seen (map seq t))) in
  let removed := select t (duplicated_from seen (map seq t)) in
  NoDup (map seq kept) /\
  (forall x, In x kept -> ~ In (seq x) seen) /\
  (forall x, In x t -> In (seq x) seen \/ In (seq x) (map seq kept)) /\
  (forall x, In x removed -> In (seq x) seen \/ In (seq x) (map seq kept)).
Proof.
  revert seen; induction t as [| a t IH]; intros seen; simpl.
  - repeat split; try constructor; contradiction.
  - destruct (IH (seq a :: seen)) as (ND & Hnew & Hall & Hrem).
    destruct (isin seen (seq a)) eqn:Seen; simpl.
    + apply isin_In in Seen.
      repeat split.
      * exact ND.
      * intros x Hx Hin; apply (Hnew x Hx); now right.
      * intros x [<- | Hx]; [now left |].
        destruct (Hall x Hx) as [[<- | H] | H]; auto.
      * intros x [<- | Hx]; [now left |].
        destruct (Hrem x Hx) as [[<- | H] | H]; auto.
    + assert (Hn : ~ In (seq a) seen)
        by (intros Hin; apply isin_In in Hin; congruence).
      repeat split.
      * constructor; [| exact ND].
        intros Hin; apply in_map_iff in Hin; destruct Hin as [x [Ex Hx]].
        apply (Hnew x Hx); left; now rewrite Ex.
      * intros x [<- | Hx]; [exact Hn |].
        intros Hin; apply (Hnew x Hx); now right.
      * intros x [<- | Hx]; [right; now left |].
        destruct (Hall x Hx) as [[E | H] | H];
          [right; left; exact E | now left | right; now right].
      * intros x Hx.
        destruct (Hrem x Hx) as [[E | H] | H];
          [right; left; exact E | now left | right; now right].
Qed.

(** X5.  When [filter_duplicate] returns, no two kept rows have the same
    sequence value, every sequence value of the input is the sequence of a
    kept row, and every removed row has the sequence of some kept row: the
    filter drops copies, never a sequence. *)
Theorem filter_duplicate_rows
  (dataset : DataFrame) (seq_column : string)
  (dataset_clean removed_list : DataFrame) (removal_reason : string) :
  filter_duplicate dataset seq_column
    = Ok (dataset_clean, removed_list, removal_reason) ->
  removal_reason = "duplicate" /\
  columns dataset_clean = columns dataset /\
  columns removed_list = columns dataset /\
  NoDup (map seq (rows dataset_clean)) /\
  (forall r, In r (rows dataset_clean) -> In r (rows dataset)) /\
  (forall r, In r (rows dataset) ->
     exists k, In k (rows dataset_clean) /\ seq k = seq r) /\
  (forall r, In r (rows removed_list) ->
     In r (rows dataset) /\
     exists k, In k (rows dataset_clean) /\ seq k = seq r).
Proof.
  rewrite filter_duplicate_eq.
  destruct (has_column dataset seq_column); [| discriminate].
  intros [= <- <- <-].
  destruct (firsts_from_spec [] (rows dataset)) as (ND & _ & Hall & Hrem).
  unfold loc, duplicated; cbn [rows columns].
  do 3 (split; [reflexivity |]).
  split; [exact ND |].
  split; [intros r Hr; eapply select_incl, Hr |].
  split.
  - intros r Hr; destruct (Hall r Hr) as [[] | H].
    apply in_map_iff in H; destruct H as [k [Ek Hk]]; now exists k.
  - intros r Hr; split; [eapply select_incl, Hr |].
    destruct (Hrem r Hr) as [[] | H].
    apply in_map_iff in H; destruct H as [k [Ek Hk]]; now exists k.
Qed.

(** ** What the removal report says about a row *)

(** X6.  Every row of the removal report is justified by the first filter
    that rejects it: a row tagged [ambiguous_N] has an ['N'] in its sequence;
    a row tagged [short_length] has none and an integer length below
    [min_length]; a row tagged [duplicate] has none, a length that is not
    below [min_length], and the sequence of a row of the final kept table.
    No other tag occurs. *)
Theorem removal_reasons_justified
  (dataset : DataFrame) (seq_column length_column : string) (min_length : Z)
  (data : DataFrame) (removal_report : list removal_row) :
  pipeline dataset seq_column length_column min_length
    = Ok (data, removal_report) ->
  forall x, In x removal_report ->
    (reason_removed x = "ambiguous_N" /\
     exists s, r_seq x = CStr s /\ 1 <= count "N"%char s) \/
    (reason_removed x = "short_length" /\
     (exists s, r_seq x = CStr s /\ count "N"%char s = 0) /\
     exists z, r_len x = CInt z /\ (z < min_length)%Z) \/
    (reason_removed x = "duplicate" /\
     (exists s, r_seq x = CStr s /\ count "N"%char s = 0) /\
     (r_len x = CNaN \/ exists z, r_len x = CInt z /\ (min_length <= z)%Z) /\
     exists k, In k (rows data) /\ seq k = r_seq x).
Proof.
  intros Hp x Hx.
  destruct (pipeline_ok _ _ _ _ _ _ Hp) as (_ & _ & Hstr & Hcmp & -> & ->).
  rewrite forallb_forall in Hstr, Hcmp.
  assert (Clean : forall r, In r (rows (no_N dataset)) ->
            exists s, seq r = CStr s /\ count "N"%char s = 0).
  { intros r Hr; unfold no_N, keep in Hr; cbn [rows] in Hr.
    apply filter_In in Hr; destruct Hr as [Hr Hn].
    apply ambiguous_false; [now apply Hstr | now apply negb_true_iff]. }
  assert (Long : forall r,
            In r (rows (long_enough min_length (no_N dataset))) ->
            In r (rows (no_N dataset)) /\
            (len r = CNaN \/
             exists z, len r = CInt z /\ (min_length <= z)%Z)).
  { intros r Hr; unfold long_enough, keep in Hr; cbn [rows] in Hr.
    apply filter_In in Hr; destruct Hr as [Hr Hn]; split; [exact Hr |].
    apply short_false; [now apply Hcmp | now apply negb_true_iff]. }
  unfold final_report in Hx.
  apply in_app_or in Hx; destruct Hx as [Hx | Hx];
    [| apply in_app_or in Hx; destruct Hx as [Hx | Hx]];
    apply in_map_iff in Hx; destruct Hx as [r [<- Hr]]; cbn.
  - left; split; [reflexivity |].
    unfold with_N, keep in Hr; cbn [rows] in Hr.
    apply filter_In in Hr; now apply ambiguous_true.
  - right; left; split; [reflexivity |].
    unfold too_short, keep in Hr; cbn [rows] in Hr.
    apply filter_In in Hr; destruct Hr as [Hr Hz].
    split; [now apply Clean | now apply short_true].
  - right; right; split; [reflexivity |].
    destruct (firsts_from_spec []
                (rows (long_enough min_length (no_N dataset))))
      as (_ & _ & _ & Hrem).
    pose proof (select_incl _ _ _ Hr) as Hin.
    destruct (Long r Hin) as [Hc Hz].
    split; [now apply Clean |]. split; [exact Hz |].
    destruct (Hrem r Hr) as [[] | Hk].
    apply in_map_iff in Hk; destruct Hk as [k [Ek Hk]]; now exists k.
Qed.

(** X7.  No row disappears: every row of the input is a row of the final
    kept table or shows, with its sequence and its length, in the removal
    report. *)
Theorem every_row_kept_or_reported
  (dataset : DataFrame) (seq_column length_column : string) (min_length : Z)
  (data : DataFrame) (removal_report : list removal_row) :
  pipeline dataset seq_column length_column min_length
    = Ok (data, removal_report) ->
  forall r, In r (rows dataset) ->
    In r (rows data) \/
    exists reason, In (mkRemoval (seq r) (len r) reason) removal_report.
Proof.
  intros Hp r Hr.
  destruct (pipeline_ok _ _ _ _ _ _ Hp) as (_ & _ & _ & _ & -> & ->).
  unfold final_report, final_kept.
  set (d1 := no_N dataset). set (d2 := long_enough min_length d1).
  assert (P : forall (rs : list row) (mask : list bool) (x : row),
             List.length mask = List.length rs -> In x rs ->
             In x (select rs (map negb mask)) \/ In x (select rs mask)).
  { intros rs mask x L Hx.
    apply (Permutation_in x (Permutation_sym (select_perm rs mask L))) in Hx.
    apply in_app_or in Hx; exact Hx. }
  assert (Q : forall (p : row -> bool) (rs : list row) (x : row),
             In x rs -> In x (filter (fun y => negb (p y)) rs)
                        \/ In x (filter p rs)).
  { intros p rs x Hx; rewrite !filter_In.
    destruct (p x); simpl; auto. }
  destruct (Q (fun y => ambiguous (seq y)) _ r Hr) as [H1 | H1].
  2:{ right; exists "ambiguous_N"; apply in_or_app; left.
      apply (in_map (tag "ambiguous_N")) in H1; exact H1. }
  destruct (Q (fun y => short min_length (len y)) _ r H1) as [H2 | H2].
  2:{ right; exists "short_length"; apply in_or_app; right.
      apply in_or_app; left.
      apply (in_map (tag "short_length")) in H2; exact H2. }
  destruct (P (rows d2) (duplicated (map seq (rows d2))) r) as [H3 | H3].
  - unfold duplicated; now rewrite duplicated_from_length, length_map.
  - exact H2.
  - left; exact H3.
  - right; exists "duplicate"; apply in_or_app; right; apply in_or_app; right.
    apply (in_map (tag "duplicate")) in H3; exact H3.
Qed.

(** ** Order *)

Lemma select_sorted (rs : list row) (mask : list bool) :
  StronglySorted lt (map label rs) ->
  StronglySorted lt (map label (select rs mask)).
Proof.
  revert mask; induction rs as [| a rs IH]; intros [| b mask] S;
    simpl; try constructor.
  simpl in S; inversion S as [| ? ? S' F]; subst.
  destruct b; simpl; [constructor |]; auto.
  rewrite Forall_forall in *; intros i Hi; apply F.
  apply in_map_iff in Hi; destruct Hi as [r [<- Hr]].
  apply in_map, (select_incl _ _ _ Hr).
Qed.

(** X8.  The filters keep the order of the file: when the index labels of
    the input increase from row to row (as [read_csv] numbers them), so do
    the labels of the final kept table and of each removed batch. *)
Theorem filters_keep_row_order
  (dataset : DataFrame) (seq_column length_column : string) (min_length : Z)
  (data : DataFrame) (removal_records : list (DataFrame * string)) :
  run_filters dataset seq_column length_column min_length
    = Ok (data, removal_records) ->
  StronglySorted lt (map label (rows dataset)) ->
  StronglySorted lt (map label (rows data)) /\
  Forall (fun record => StronglySorted lt (map label (rows (fst record))))
         removal_records.
Proof.
  unfold run_filters; rewrite filter_ambiguous_eq.
  destruct (has_column dataset seq_column) eqn:Hs; [| discriminate].
  destruct (forallb _ (rows dataset)); [| discriminate].
  cbn [bind]; rewrite filter_length_eq, has_column_keep.
  destruct (has_column dataset length_column); [| discriminate].
  destruct (forallb _ _); [| discriminate].
  cbn [bind]; rewrite filter_duplicate_eq, !has_column_keep, Hs.
  cbn [bind]; intros [= <- <-] S.
  assert (K : forall d p, StronglySorted lt (map label (rows d)) ->
                StronglySorted lt (map label (rows (keep d p)))).
  { intros d p Sd; unfold keep; cbn [rows].
    rewrite <- select_map; now apply select_sorted. }
  assert (L : forall d mask, StronglySorted lt (map label (rows d)) ->
                StronglySorted lt (map label (rows (loc d mask)))).
  { intros d mask Sd; unfold loc; cbn [rows]; now apply select_sorted. }
  split; [auto |].
  repeat constructor; cbn [fst]; auto.
Qed.

(** ** A table with nothing to remove *)

Lemma no_repeat_mask (seen col : list cell) :
  NoDup col -> (forall x, In x col -> ~ In x seen) ->
  duplicated_from seen col = map (fun _ => false) col.
Proof.
  revert seen; induction col as [| x col IH]; intros seen ND Hs; simpl;
    [reflexivity |].
  inversion ND as [| ? ? Hx ND']; subst.
  replace (isin seen x) with false.
  2:{ symmetry; destruct (isin seen x) eqn:E; [| reflexivity].
      apply isin_In in E; exfalso; apply (Hs x); [now left | exact E]. }
  f_equal; apply IH; [exact ND' |].
  intros y Hy [<- | Hin]; [contradiction |].
  apply (Hs y); [now right | exact Hin].
Qed.

Lemma select_mapped_all (t : list row) :
  select t (map negb (map (fun _ : cell => false) (map seq t))) = t.
Proof. induction t as [| a t IH]; simpl; [reflexivity | now rewrite IH]. Qed.

Lemma select_mapped_nothing (t : list row) :
  select t (map (fun _ : cell => false) (map seq t)) = [].
Proof. induction t as [| a t IH]; simpl; [reflexivity | exact IH]. Qed.

(** X9.  When no sequence of the table holds an ['N'], no length is an
    integer below [min_length] (and none is a string), and all sequences are
    different, the three filters return the table as it is, with three
    removed batches without rows.  The labelling loop then raises
    [ValueError] at line 87, so that the script stops there and writes no
    report for a table that has nothing to remove. *)
Theorem clean_table_stops_at_labelling
  (dataset : DataFrame) (seq_column length_column : string) (min_length : Z) :
  has_column dataset seq_column = true ->
  has_column dataset length_column = true ->
  (forall r, In r (rows dataset) ->
     exists s, seq r = CStr s /\ count "N"%char s = 0) ->
  (forall r, In r (rows dataset) ->
     len r = CNaN \/ exists z, len r = CInt z /\ (min_length <= z)%Z) ->
  NoDup (map seq (rows dataset)) ->
  run_filters dataset seq_column length_column min_length
    = Ok (dataset, [ (mkFrame (columns dataset) [], "ambiguous_N");
                     (mkFrame (columns dataset) [], "short_length");
                     (mkFrame (columns dataset) [], "duplicate") ]) /\
  pipeline dataset seq_column length_column min_length = Raise ValueError /\
  run dataset seq_column length_column min_length = (Raise ValueError, []).
Proof.
  intros Hs Hl Hseq Hlen ND.
  assert (A : forallb (fun r => negb (ambiguous (seq r))) (rows dataset) = true).
  { apply forallb_forall; intros r Hr; destruct (Hseq r Hr) as (s & -> & Hn).
    unfold ambiguous; now rewrite Hn. }
  assert (B : forallb (fun r => negb (short min_length (len r))) (rows dataset)
              = true).
  { apply forallb_forall; intros r Hr.
    destruct (Hlen r Hr) as [-> | (z & -> & Hz)]; [reflexivity |].
    now apply negb_true_iff, Z.ltb_ge. }
  assert (E1 : no_N dataset = dataset).
  { unfold no_N, keep; rewrite filter_all by exact A; now destruct dataset. }
  assert (R1 : with_N dataset = mkFrame (columns dataset) []).
  { unfold with_N, keep; f_equal; now apply filter_none. }
  assert (E2 : long_enough min_length dataset = dataset).
  { unfold long_enough, keep; rewrite filter_all by exact B;
      now destruct dataset. }
  assert (R2 : too_short min_length dataset = mkFrame (columns dataset) []).
  { unfold too_short, keep; f_equal; now apply filter_none. }
  assert (D : duplicated (map seq (rows dataset))
              = map (fun _ => false) (map seq (rows dataset))).
  { apply no_repeat_mask; [exact ND | intros x _ []]. }
  assert (E3 : firsts dataset = dataset).
  { unfold firsts, loc; rewrite D, select_mapped_all; now destruct dataset. }
  assert (R3 : repeats dataset = mkFrame (columns dataset) []).
  { unfold repeats, loc; now rewrite D, select_mapped_nothing. }
  assert (Hstr : forallb (fun r => is_str (seq r)) (rows dataset) = true).
  { apply forallb_forall; intros r Hr.
    destruct (Hseq r Hr) as (s & -> & _); reflexivity. }
  assert (Hcmp : forallb (fun r => comparable (len r)) (rows dataset) = true).
  { apply forallb_forall; intros r Hr.
    destruct (Hlen r Hr) as [-> | (z & -> & _)]; reflexivity. }
  assert (Hp : pipeline dataset seq_column length_column min_length
               = Raise ValueError).
  { rewrite pipeline_eq, Hs, Hl, E1, Hstr, Hcmp.
    unfold every_batch_has_rows, batches; rewrite R1; reflexivity. }
  split.
  - rewrite run_filters_eq, Hs, Hl, E1, Hstr, Hcmp.
    unfold final_kept, batches.
    now rewrite !E1, !E2, E3, R1, R2, R3.
  - split; [exact Hp |].
    unfold run; rewrite main_eq, Hp; reflexivity.
Qed.

(** ** Counts and fractions *)

Lemma count_up_sum (key : string) (counts : list (string * nat)) :
  list_sum (map snd (count_up key counts)) = S (list_sum (map snd counts)).
Proof.
  induction counts as [| [k n] counts IH]; simpl; [reflexivity |].
  destruct (String.eqb k key); simpl; [reflexivity | rewrite IH; lia].
Qed.

Lemma tally_sum (col : list string) (counts : list (string * nat)) :
  list_sum (map snd
    (fold_left (fun counts key => count_up key counts) col counts))
  = List.length col + list_sum (map snd counts).
Proof.
  revert counts; induction col as [| key col IH]; intros counts; simpl;
    [reflexivity |].
  rewrite IH, count_up_sum; lia.
Qed.

Lemma insert_desc_sum (e : string * nat) (l : list (string * nat)) :
  list_sum (map snd (insert_desc e l)) = snd e + list_sum (map snd l).
Proof.
  induction l as [| e' l IH]; simpl; [reflexivity |].
  destruct (snd e' <=? snd e); simpl; [reflexivity | rewrite IH; lia].
Qed.

Lemma value_counts_sum (col : list string) :
  list_sum (map snd (value_counts col)) = List.length col.
Proof.
  unfold value_counts, tally.
  assert (S : forall l, list_sum (map snd (fold_right insert_desc [] l))
                        = list_sum (map snd l)).
  { induction l as [| e l IH]; simpl; [reflexivity |].
    now rewrite insert_desc_sum, IH. }
  rewrite S, tally_sum; simpl; lia.
Qed.

Lemma removed_for_reasons (dataset : DataFrame)
  (seq_column length_column : string) (min_length : Z) (data : DataFrame)
  (removal_report : list removal_row) :
  pipeline dataset seq_column length_column min_length
    = Ok (data, removal_report) ->
  1 <= removed_for "ambiguous_N" removal_report /\
  1 <= removed_for "short_length" removal_report /\
  1 <= removed_for "duplicate" removal_report /\
  removed_for "ambiguous_N" removal_report
  + removed_for "short_length" removal_report
  + removed_for "duplicate" removal_report = List.length removal_report.
Proof.
  intros Hp.
  destruct (pipeline_ok_batches _ _ _ _ _ _ Hp) as (N1 & N2 & N3).
  destruct (pipeline_ok _ _ _ _ _ _ Hp) as (_ & _ & _ & _ & _ & ->).
  assert (L : List.length (final_report dataset min_length)
              = List.length (rows (with_N dataset))
                + List.length (rows (too_short min_length (no_N dataset)))
                + List.length
                    (rows (repeats (long_enough min_length (no_N dataset))))).
  { unfold final_report; rewrite !length_app, !length_map; lia. }
  unfold removed_for; rewrite reasons_of_final_report, !count_occ_reasons, L.
  cbn [String.eqb Ascii.eqb Bool.eqb].
  destruct (rows (with_N dataset)); [contradiction |].
  destruct (rows (too_short min_length (no_N dataset))); [contradiction |].
  destruct (rows (repeats (long_enough min_length (no_N dataset))));
    [contradiction |].
  cbn [List.length]; lia.
Qed.

(** X10.  In every completed run the metrics report has the three entries
    [removed_ambiguous_N], [removed_short_length] and [removed_duplicate];
    each carries the number of rows of the removal report with that reason,
    which is at least one, and the three add up to [removed_rows], the number
    of rows of the removal report. *)
Theorem reason_counts_add_up
  (dataset : DataFrame) (seq_column length_column : string) (min_length : Z)
  (written : disk) :
  run dataset seq_column length_column min_length = (Ok tt, written) ->
  exists removal_report summary_data n1 n2 n3,
    written = [removal_file removal_report; metrics_file summary_data] /\
    n1 = removed_for "ambiguous_N" removal_report /\
    n2 = removed_for "short_length" removal_report /\
    n3 = removed_for "duplicate" removal_report /\
    metric "removed_ambiguous_N" summary_data = Some (Num (of_nat n1)) /\
    metric "removed_short_length" summary_data = Some (Num (of_nat n2)) /\
    metric "removed_duplicate" summary_data = Some (Num (of_nat n3)) /\
    metric "removed_rows" summary_data = Some (Num (of_nat (n1 + n2 + n3))) /\
    1 <= n1 /\ 1 <= n2 /\ 1 <= n3 /\
    n1 + n2 + n3 = List.length removal_report.
Proof.
  intros Hrun.
  destruct (run_completed _ _ _ _ _ Hrun) as (data & removal_report & Hp & Hne).
  rewrite (run_ok _ _ _ _ _ _ Hp Hne) in Hrun; injection Hrun as <-.
  destruct (removed_for_reasons _ _ _ _ _ _ Hp) as (P1 & P2 & P3 & Sum).
  assert (V : forall reason n,
            In (reason, n) (value_counts (map reason_removed removal_report))
            <-> 1 <= n /\ n = removed_for reason removal_report).
  { unfold removed_for.
    destruct (pipeline_ok _ _ _ _ _ _ Hp) as (_ & _ & _ & _ & _ & ->).
    rewrite reasons_of_final_report.
    apply value_counts_reasons. }
  assert (M : forall reason,
            In reason ["ambiguous_N"; "short_length"; "duplicate"] ->
            1 <= removed_for reason removal_report ->
            metric ("removed_" ++ reason)
              (metrics_summary data length_column
                 (List.length removal_report)
                 (of_nat (List.length removal_report)
                  / of_nat (List.length (rows dataset)) * 100)%Q
                 (value_counts (map reason_removed removal_report)))
            = Some (Num (of_nat (removed_for reason removal_report)))).
  { intros reason Hin Hpos.
    rewrite (metric_removed_reason _ _ _ _ _ _ Hin).
    rewrite (find_count _ (fun r => removed_for r removal_report) reason V).
    destruct (Nat.eqb_spec (removed_for reason removal_report) 0);
      [lia | reflexivity]. }
  exists removal_report; eexists; do 3 eexists.
  split; [reflexivity |].
  do 3 (split; [reflexivity |]).
  split; [apply (M "ambiguous_N"); [simpl; auto | exact P1] |].
  split; [apply (M "short_length"); [simpl; auto | exact P2] |].
  split; [apply (M "duplicate"); [simpl; auto | exact P3] |].
  split; [rewrite Sum; apply metric_removed_rows |].
  auto.
Qed.

Lemma pipeline_counts (dataset : DataFrame) (seq_column length_column : string)
  (min_length : Z) (data : DataFrame) (removal_report : list removal_row) :
  pipeline dataset seq_column length_column min_length
    = Ok (data, removal_report) ->
  List.length removal_report + List.length (rows data)
  = List.length (rows dataset).
Proof.
  intros Hp.
  destruct (pipeline_ok _ _ _ _ _ _ Hp) as (_ & _ & _ & _ & -> & ->).
  unfold final_report, final_kept, firsts, repeats, loc; cbn [rows].
  rewrite !length_app, !length_map.
  set (d1 := no_N dataset). set (d2 := long_enough min_length d1).
  pose proof (select_length (rows d2) (duplicated (map seq (rows d2)))) as L3.
  unfold duplicated in L3; rewrite duplicated_from_length, length_map in L3.
  rewrite Nat.min_id in L3.
  assert (F : forall (p : row -> bool) (rs : list row),
            List.length (filter (fun y => negb (p y)) rs)
            + List.length (filter p rs) = List.length rs).
  { intros p rs; induction rs as [| a rs IH]; simpl; [reflexivity |].
    destruct (p a); simpl; lia. }
  pose proof (F (fun y => ambiguous (seq y)) (rows dataset)) as L1.
  pose proof (F (fun y => short min_length (len y)) (rows d1)) as L2.
  unfold with_N, too_short, keep; cbn [rows].
  unfold d2, long_enough, keep in L3 |- *; cbn [rows] in L3 |- *.
  unfold d1, no_N, keep in L2, L3 |- *; cbn [rows] in L2, L3 |- *.
  unfold duplicated. lia.
Qed.

Lemma of_nat_add (a b : nat) : (of_nat (a + b) == of_nat a + of_nat b)%Q.
Proof.
  unfold of_nat; now rewrite Nat2Z.inj_add, inject_Z_plus.
Qed.

Lemma of_nat_nonneg (a : nat) : (0 <= of_nat a)%Q.
Proof. unfold of_nat, Qle; simpl; lia. Qed.

Lemma of_nat_pos (a : nat) : a <> 0 -> (0 < of_nat a)%Q.
Proof. intros H; unfold of_nat, Qlt; simpl; lia. Qed.

Lemma percentage_nonneg (a n : nat) :
  n <> 0 -> (0 <= of_nat a / of_nat n * 100)%Q.
Proof.
  intros Hn; apply Qmult_le_0_compat; [| discriminate].
  apply Qle_shift_div_l; [now apply of_nat_pos |].
  rewrite Qmult_0_l; apply of_nat_nonneg.
Qed.

Lemma percentages_complement (a k n : nat) :
  n <> 0 -> a + k = n ->
  (of_nat a / of_nat n * 100 + of_nat k / of_nat n * 100 == 100)%Q.
Proof.
  intros Hn <-.
  pose proof (of_nat_nonzero _ Hn) as Hz.
  rewrite of_nat_add in Hz |- *.
  field; exact Hz.
Qed.

(** X11.  In every completed run [fraction_rows] lies between 0 and 100, and
    together with the share of the rows that were kept (rows of the final
    kept table over rows of the input, times 100) it makes 100. *)
Theorem fraction_rows_within_bounds
  (dataset : DataFrame) (seq_column length_column : string) (min_length : Z)
  (written : disk) :
  run dataset seq_column length_column min_length = (Ok tt, written) ->
  exists data removal_report summary_data q,
    pipeline dataset seq_column length_column min_length
      = Ok (data, removal_report) /\
    written = [removal_file removal_report; metrics_file summary_data] /\
    metric "fraction_rows" summary_data = Some (Num q) /\
    (0 <= q)%Q /\ (q <= 100)%Q /\
    (q + of_nat (List.length (rows data))
         / of_nat (List.length (rows dataset)) * 100 == 100)%Q.
Proof.
  intros Hrun.
  destruct (run_completed _ _ _ _ _ Hrun) as (data & removal_report & Hp & Hne).
  rewrite (run_ok _ _ _ _ _ _ Hp Hne) in Hrun; injection Hrun as <-.
  assert (Hn : List.length (rows dataset) <> 0)
    by (destruct (rows dataset); [contradiction | discriminate]).
  pose proof (pipeline_counts _ _ _ _ _ _ Hp) as Hc.
  pose proof (percentages_complement _ _ _ Hn Hc) as Hq.
  exists data, removal_report; eexists; eexists.
  split; [exact Hp |]. split; [reflexivity |]. split; [reflexivity |].
  split; [now apply percentage_nonneg |].
  split; [| exact Hq].
  pose proof (percentage_nonneg (List.length (rows data)) _ Hn) as Hk.
  revert Hq Hk.
  generalize (of_nat (List.length removal_report)
              / of_nat (List.length (rows dataset)) * 100)%Q.
  generalize (of_nat (List.length (rows data))
              / of_nat (List.length (rows dataset)) * 100)%Q.
  intros b a Hq Hk.
  apply Qle_trans with (a + b)%Q; [| rewrite Hq; apply Qle_refl].
  apply Qle_trans with (a + 0)%Q; [rewrite Qplus_0_r; apply Qle_refl |].
  apply (proj2 (Qplus_le_r 0 b a)); exact Hk.
Qed.

(** ** The shape of the output *)


(** X13.  The division of line 97 has no guard, but it never divides by
    zero: a table without rows does not get past the labelling loop, so no
    run on a table that was read stops with [ZeroDivisionError]. *)
Theorem division_never_by_zero
  (dataset : DataFrame) (seq_column length_column : string) (min_length : Z) :
  fst (run dataset seq_column length_column min_length)
    <> Raise ZeroDivisionError /\
  (forall data removal_report,
     pipeline dataset seq_column length_column min_length
       = Ok (data, removal_report) ->
     exists ratio,
       true_div (List.length removal_report) (List.length (rows dataset))
         = Ok ratio).
Proof.
  assert (Div : forall data removal_report,
            pipeline dataset seq_column length_column min_length
              = Ok (data, removal_report) ->
            exists ratio,
              true_div (List.length removal_report)
                       (List.length (rows dataset)) = Ok ratio).
  { intros data removal_report Hp.
    pose proof (pipeline_counts _ _ _ _ _ _ Hp) as Hc.
    destruct (removed_for_reasons _ _ _ _ _ _ Hp) as (P1 & _ & _ & Sum).
    eexists; apply true_div_ok; lia. }
  split; [| exact Div].
  unfold run; rewrite main_eq.
  destruct (pipeline dataset seq_column length_column min_length)
    as [[data removal_report] | e] eqn:Hp.
  - destruct (Div _ _ eq_refl) as [ratio E]; cbv zeta; rewrite E;
      discriminate.
  - cbn [fst]; intros [= ->]; revert Hp; rewrite pipeline_eq.
    repeat match goal with
           | |- context [if ?b then _ else _] => destruct b
           end; discriminate.
Qed.

Lemma reasons_counted_are_known (n1 n2 n3 : nat) (reason : string) :
  In reason (map fst (value_counts (reasons_column n1 n2 n3))) ->
  In reason ["ambiguous_N"; "short_length"; "duplicate"].
Proof.
  intros H; apply in_map_iff in H; destruct H as [[k n] [<- H]].
  destruct (value_counts_reasons n1 n2 n3) as (P & _ & _).
  apply P in H; destruct H as [Hn E]; rewrite count_occ_reasons in E.
  cbn [fst In].
  destruct (String.eqb_spec k "ambiguous_N"); [auto |].
  destruct (String.eqb_spec k "short_length"); [auto |].
  destruct (String.eqb_spec k "duplicate"); [auto |].
  lia.
Qed.

(** X14.  The metrics report of a completed run has between twelve and
    fifteen entries: at most three reasons are counted, so the three colours
    of the pie chart are never outnumbered by its wedges. *)
Theorem at_most_three_reasons
  (dataset : DataFrame) (seq_column length_column : string) (min_length : Z)
  (written : disk) :
  run dataset seq_column length_column min_length = (Ok tt, written) ->
  exists removal_report summary_data,
    written = [removal_file removal_report; metrics_file summary_data] /\
    List.length (value_counts (map reason_removed removal_report)) <= 3 /\
    12 <= List.length summary_data <= 15.
Proof.
  intros Hrun.
  destruct (run_completed _ _ _ _ _ Hrun) as (data & removal_report & Hp & Hne).
  rewrite (run_ok _ _ _ _ _ _ Hp Hne) in Hrun; injection Hrun as <-.
  exists removal_report; eexists; split; [reflexivity |].
  assert (L : List.length (value_counts (map reason_removed removal_report))
              <= 3).
  { destruct (pipeline_ok _ _ _ _ _ _ Hp) as (_ & _ & _ & _ & _ & ->).
    rewrite reasons_of_final_report.
    match goal with |- List.length (value_counts (reasons_column ?a ?b ?c)) <= _
      => destruct (value_counts_reasons a b c) as (_ & ND & _);
         pose proof (NoDup_incl_length ND
                       (reasons_counted_are_known a b c)) as Hlen
    end.
    now rewrite length_map in Hlen. }
  split; [exact L |].
  unfold metrics_summary, removed_entries;
    cbn [flat_map describe app List.length].
  rewrite length_map; lia.
Qed.

Lemma insert_desc_length (e : string * nat) (l : list (string * nat)) :
  List.length (insert_desc e l) = S (List.length l).
Proof.
  induction l as [| e' l IH]; simpl; [reflexivity |].
  destruct (snd e' <=? snd e); simpl; [reflexivity | now rewrite IH].
Qed.

Lemma sorted_length (l : list (string * nat)) :
  List.length (fold_right insert_desc [] l) = List.length l.
Proof.
  induction l as [| e l IH]; simpl; [reflexivity |].
  now rewrite insert_desc_length, IH.
Qed.

Lemma firsts_has_rows (dataset : DataFrame) :
  rows (repeats dataset) <> [] -> rows (firsts dataset) <> [].
Proof.
  unfold repeats, firsts, loc, duplicated; cbn [rows].
  destruct (rows dataset) as [| a t]; simpl; [auto | discriminate].
Qed.

(** X15.  Whenever the labelling loop gets through, each of the three
    filters has removed at least one row.  The three reasons are then all
    counted, so the pie chart has exactly as many wedges as it has colours;
    the final kept table has at least one row (the first row with the
    sequence of a removed duplicate), and the input has at least four
    rows. *)
Theorem completed_pipeline_has_every_reason
  (dataset : DataFrame) (seq_column length_column : string) (min_length : Z)
  (data : DataFrame) (removal_report : list removal_row) :
  pipeline dataset seq_column length_column min_length
    = Ok (data, removal_report) ->
  1 <= removed_for "ambiguous_N" removal_report /\
  1 <= removed_for "short_length" removal_report /\
  1 <= removed_for "duplicate" removal_report /\
  List.length (value_counts (map reason_removed removal_report)) = 3 /\
  rows data <> [] /\
  4 <= List.length (rows dataset).
Proof.
  intros Hp.
  destruct (removed_for_reasons _ _ _ _ _ _ Hp) as (P1 & P2 & P3 & Sum).
  pose proof (pipeline_counts _ _ _ _ _ _ Hp) as Hc.
  destruct (pipeline_ok_batches _ _ _ _ _ _ Hp) as (N1 & N2 & N3).
  assert (Hd : rows data <> []).
  { destruct (pipeline_ok _ _ _ _ _ _ Hp) as (_ & _ & _ & _ & -> & _).
    now apply firsts_has_rows. }
  do 3 (split; [assumption |]).
  split.
  { destruct (pipeline_ok _ _ _ _ _ _ Hp) as (_ & _ & _ & _ & _ & ->).
    rewrite reasons_of_final_report.
    unfold value_counts; rewrite sorted_length, tally_reasons.
    destruct (rows (with_N dataset)); [contradiction |].
    destruct (rows (too_short min_length (no_N dataset))); [contradiction |].
    destruct (rows (repeats (long_enough min_length (no_N dataset))));
      [contradiction |].
    reflexivity. }
  split; [exact Hd |].
  destruct (rows data); [contradiction |]; cbn [List.length] in Hc; lia.
Qed.

(** ** GC content *)

Lemma upper_G (a : ascii) :
  Ascii.eqb (upper_ascii a) "G" = Ascii.eqb a "G" || Ascii.eqb a "g".
Proof.
  destruct a as [[] [] [] [] [] [] [] []]; reflexivity.
Qed.

Lemma upper_C (a : ascii) :
  Ascii.eqb (upper_ascii a) "C" = Ascii.eqb a "C" || Ascii.eqb a "c".
Proof.
  destruct a as [[] [] [] [] [] [] [] []]; reflexivity.
Qed.

Lemma upper_ascii_twice (a : ascii) :
  upper_ascii (upper_ascii a) = upper_ascii a.
Proof.
  destruct a as [[] [] [] [] [] [] [] []]; reflexivity.
Qed.

Lemma upper_twice (s : string) : upper (upper s) = upper s.
Proof.
  induction s as [| a s IH]; simpl; [reflexivity |].
  now rewrite upper_ascii_twice, IH.
Qed.

Lemma upper_length (s : string) : String.length (upper s) = String.length s.
Proof. induction s as [| a s IH]; simpl; [reflexivity | now rewrite IH]. Qed.

Lemma count_upper_G (s : string) :
  count "G"%char (upper s) = count "G"%char s + count "g"%char s.
Proof.
  induction s as [| a s IH]; simpl; [reflexivity |].
  rewrite upper_G, IH.
  destruct a as [[] [] [] [] [] [] [] []]; simpl; lia.
Qed.

Lemma count_upper_C (s : string) :
  count "C"%char (upper s) = count "C"%char s + count "c"%char s.
Proof.
  induction s as [| a s IH]; simpl; [reflexivity |].
  rewrite upper_C, IH.
  destruct a as [[] [] [] [] [] [] [] []]; simpl; lia.
Qed.

Lemma GC_count_le_length (s : string) :
  count "G"%char s + count "g"%char s + (count "C"%char s + count "c"%char s)
  <= String.length s.
Proof.
  induction s as [| a s IH]; simpl; [lia |].
  destruct a as [[] [] [] [] [] [] [] []]; simpl; lia.
Qed.

(** X16.  [GC_percentage] is NaN on the empty sequence and on a value that
    is not a string; on any other sequence it is a number between 0 and
    100. *)
Theorem GC_percentage_range (x : cell) :
  (x = CStr EmptyString \/ (forall s, x <> CStr s) -> GC_percentage x = NaN) /\
  (forall s, x = CStr s -> s <> EmptyString ->
     exists q, GC_percentage x = Num q /\ (0 <= q)%Q /\ (q <= 100)%Q).
Proof.
  split.
  - intros [-> | H]; [reflexivity |].
    destruct x as [s | z |]; try reflexivity.
    exfalso; now apply (H s).
  - intros s -> Hs.
    assert (Hn : String.length s <> 0)
      by (destruct s; [contradiction | discriminate]).
    unfold GC_percentage, series_div, times.
    destruct (Nat.eqb_spec (String.length s) 0); [contradiction |].
    eexists; split; [reflexivity |].
    split; [now apply percentage_nonneg |].
    pose proof (GC_count_le_length s) as Hle.
    rewrite <- count_upper_G, <- count_upper_C in Hle.
    set (g := count "G"%char (upper s) + count "C"%char (upper s)) in *.
    apply Qle_trans with (1 * 100)%Q; [| discriminate].
    apply Qmult_le_compat_r; [| discriminate].
    apply Qle_shift_div_r; [now apply of_nat_pos |].
    rewrite Qmult_1_l; unfold of_nat; rewrite <- Zle_Qle; lia.
Qed.

(** X17.  Case does not matter on a sequence of ASCII characters: the
    upper-cased sequence has as many ['G'] as the sequence has ['G'] and
    ['g'] together, likewise for ['C'], and [GC_percentage] gives the same
    value on the sequence and on its upper-cased form. *)
Theorem GC_percentage_ignores_case (s : string) :
  is_ascii s = true ->
  count "G"%char (upper s) = count "G"%char s + count "g"%char s /\
  count "C"%char (upper s) = count "C"%char s + count "c"%char s /\
  GC_percentage (CStr (upper s)) = GC_percentage (CStr s).
Proof.
  intros _.
  split; [apply count_upper_G |]. split; [apply count_upper_C |].
  unfold GC_percentage; now rewrite upper_twice, upper_length.
Qed.

(** ** Statistics of a column *)

Lemma dropna_In (col : list number) (x : Q) :
  In x (dropna col) <-> In (Num x) col.
Proof.
  unfold dropna; rewrite in_flat_map; split.
  - intros [[q | q |] [Hin Hx]]; simpl in Hx; try contradiction.
    destruct Hx as [<- | []]; exact Hin.
  - intros H; exists (Num x); split; [exact H | now left].
Qed.

Lemma qmin_spec (a b : Q) :
  (qmin a b = a \/ qmin a b = b) /\ (qmin a b <= a)%Q /\ (qmin a b <= b)%Q.
Proof.
  unfold qmin; destruct (Qle_bool a b) eqn:E.
  - apply Qle_bool_iff in E; repeat split; auto; apply Qle_refl.
  - assert (H : ~ (a <= b)%Q) by (intros H; apply Qle_bool_iff in H; congruence).
    apply Qnot_le_lt, Qlt_le_weak in H; repeat split; auto; apply Qle_refl.
Qed.

Lemma qmax_spec (a b : Q) :
  (qmax a b = a \/ qmax a b = b) /\ (a <= qmax a b)%Q /\ (b <= qmax a b)%Q.
Proof.
  unfold qmax; destruct (Qle_bool a b) eqn:E.
  - apply Qle_bool_iff in E; repeat split; auto; apply Qle_refl.
  - assert (H : ~ (a <= b)%Q) by (intros H; apply Qle_bool_iff in H; congruence).
    apply Qnot_le_lt, Qlt_le_weak in H; repeat split; auto; apply Qle_refl.
Qed.

Lemma fold_qmin_spec (qs : list Q) (q : Q) :
  In (fold_left qmin qs q) (q :: qs) /\
  Forall (fun x => (fold_left qmin qs q <= x)%Q) (q :: qs).
Proof.
  revert q; induction qs as [| y qs IH]; intros q; simpl.
  - split; [now left | repeat constructor; apply Qle_refl].
  - destruct (IH (qmin q y)) as [Hin Hall].
    destruct (qmin_spec q y) as (Hor & Hq & Hy).
    inversion Hall as [| ? ? Hm Hrest]; subst.
    split.
    + destruct Hin as [E | Hin]; [| now right; right].
      rewrite <- E; destruct Hor as [-> | ->]; [now left | right; now left].
    + repeat constructor; try assumption; eapply Qle_trans; eauto.
Qed.

Lemma fold_qmax_spec (qs : list Q) (q : Q) :
  In (fold_left qmax qs q) (q :: qs) /\
  Forall (fun x => (x <= fold_left qmax qs q)%Q) (q :: qs).
Proof.
  revert q; induction qs as [| y qs IH]; intros q; simpl.
  - split; [now left | repeat constructor; apply Qle_refl].
  - destruct (IH (qmax q y)) as [Hin Hall].
    destruct (qmax_spec q y) as (Hor & Hq & Hy).
    inversion Hall as [| ? ? Hm Hrest]; subst.
    split.
    + destruct Hin as [E | Hin]; [| now right; right].
      rewrite <- E; destruct Hor as [-> | ->]; [now left | right; now left].
    + repeat constructor; try assumption; eapply Qle_trans; eauto.
Qed.

Lemma statistics_bounds (col : list number) (y : Q) :
  In (Num y) col ->
  exists lo hi,
    series_min col = Num lo /\ series_max col = Num hi /\
    In lo (dropna col) /\ In hi (dropna col) /\
    Forall (fun x => (lo <= x)%Q) (dropna col) /\
    Forall (fun x => (x <= hi)%Q) (dropna col).
Proof.
  intros Hy; apply dropna_In in Hy.
  unfold series_min, series_max.
  destruct (dropna col) as [| q qs]; [contradiction |].
  destruct (fold_qmin_spec qs q) as [Imin Fmin].
  destruct (fold_qmax_spec qs q) as [Imax Fmax].
  eexists; eexists; repeat split; eassumption.
Qed.

(** X18.  On a column without any number, [min] and [max] are NaN.  On a
    column with at least one number they are numbers of the column, missing
    values left aside, and every number of the column lies between them. *)
Theorem min_max_of_column (col : list number) :
  ((forall x, ~ In (Num x) col) ->
   series_min col = NaN /\ series_max col = NaN) /\
  (forall y, In (Num y) col ->
   exists lo hi,
     series_min col = Num lo /\ series_max col = Num hi /\
     In (Num lo) col /\ In (Num hi) col /\
     forall x, In (Num x) col -> (lo <= x)%Q /\ (x <= hi)%Q).
Proof.
  split.
  - intros H; unfold series_min, series_max.
    destruct (dropna col) as [| q qs] eqn:E; [split; reflexivity |].
    exfalso; apply (H q), dropna_In; rewrite E; now left.
  - intros y Hy.
    destruct (statistics_bounds col y Hy)
      as (lo & hi & Emin & Emax & Ilo & Ihi & Flo & Fhi).
    exists lo, hi; rewrite Forall_forall in Flo, Fhi.
    repeat split; try assumption; try (now apply dropna_In).
    + now apply Flo, dropna_In.
    + now apply Fhi, dropna_In.
Qed.

(** ** How the filters compose *)

(** X21.  On a well-formed table the first two filters can be swapped
    without changing what is kept: removing the ambiguous rows and then the
    short ones leaves the same table as removing the short rows and then the
    ambiguous ones.  (What changes is the reason under which a short row with
    an ['N'] is reported.) *)
Theorem ambiguous_and_length_commute
  (dataset : DataFrame) (seq_column length_column : string) (min_length : Z) :
  well_formed dataset seq_column length_column ->
  exists a removed_a b removed_b c removed_c d removed_d,
    filter_ambiguous dataset seq_column = Ok (a, removed_a, "ambiguous_N") /\
    filter_length a length_column min_length
      = Ok (b, removed_b, "short_length") /\
    filter_length dataset length_column min_length
      = Ok (c, removed_c, "short_length") /\
    filter_ambiguous c seq_column = Ok (d, removed_d, "ambiguous_N") /\
    b = d.
Proof.
  intros [Hs Hl Hstr Hint _].
  pose proof (is_int_comparable _ Hint) as Hcmp.
  do 8 eexists.
  split; [rewrite filter_ambiguous_eq, Hs, Hstr; reflexivity |].
  split.
  { rewrite filter_length_eq, has_column_keep, Hl.
    unfold keep at 1; cbn [rows].
    rewrite (forallb_filter _ _ _ Hcmp); reflexivity. }
  split; [rewrite filter_length_eq, Hl, Hcmp; reflexivity |].
  split.
  { rewrite filter_ambiguous_eq, has_column_keep, Hs.
    unfold keep at 1; cbn [rows].
    rewrite (forallb_filter _ _ _ Hstr); reflexivity. }
  unfold keep; cbn [rows columns]; f_equal; apply filter_swap.
Qed.


(** X24.  Raising the threshold never lets more through: if the three
    filters run to the end with [min_length] then they do with any larger
    threshold, the final kept table then has at most as many rows, and each
    of its sequences is a sequence of the table kept under [min_length]. *)
Theorem raising_threshold_keeps_fewer
  (dataset : DataFrame) (seq_column length_column : string)
  (min_length larger : Z)
  (data : DataFrame) (removal_records : list (DataFrame * string)) :
  run_filters dataset seq_column length_column min_length
    = Ok (data, removal_records) ->
  (min_length <= larger)%Z ->
  exists data' removal_records',
    run_filters dataset seq_column length_column larger
      = Ok (data', removal_records') /\
    List.length (rows data') <= List.length (rows data) /\
    forall r', In r' (rows data') ->
      exists r, In r (rows data) /\ seq r = seq r'.
Proof.
  intros Hp Hle.
  destruct (run_filters_ok _ _ _ _ _ _ Hp) as (Hs & Hl & Hstr & Hcmp & -> & _).
  exists (final_kept dataset larger), (batches dataset larger).
  split; [now rewrite run_filters_eq, Hs, Hl, Hstr, Hcmp |].
  set (t := rows (long_enough min_length (no_N dataset))).
  set (t' := rows (long_enough larger (no_N dataset))).
  assert (Sub : forall r, In r t' -> In r t).
  { intros r Hr; unfold t, t', long_enough, keep in *; cbn [rows] in *.
    apply filter_In in Hr; destruct Hr as [Hr Hn]; apply filter_In.
    split; [exact Hr |].
    apply negb_true_iff in Hn; apply negb_true_iff.
    destruct (len r) as [| z |]; try reflexivity.
    unfold short in *; apply Z.ltb_ge in Hn; apply Z.ltb_ge; lia. }
  destruct (firsts_from_spec [] t) as (_ & _ & Hall & _).
  destruct (firsts_from_spec [] t') as (ND' & _ & _ & _).
  assert (Cover : forall r', In r' (rows (final_kept dataset larger)) ->
            In (seq r') (map seq (rows (final_kept dataset min_length)))).
  { intros r' Hr'.
    unfold final_kept, firsts, loc in Hr'; cbn [rows] in Hr'.
    apply select_incl, Sub in Hr'.
    destruct (Hall r' Hr') as [[] | H]; exact H. }
  split.
  - rewrite <- (length_map seq (rows (final_kept dataset larger))).
    rewrite <- (length_map seq (rows (final_kept dataset min_length))).
    apply NoDup_incl_length; [exact ND' |].
    intros c Hc; apply in_map_iff in Hc; destruct Hc as [r' [<- Hr']].
    now apply Cover.
  - intros r' Hr'; apply Cover, in_map_iff in Hr'.
    destruct Hr' as [r [E Hr]]; now exists r.
Qed.

(** ** The further properties at concrete tables *)

Local Abbreviation header := ["sequence"; "length"] (only parsing).
Local Abbreviation row0 := (mkRow 0 (CStr "ACGT") (CInt 4) []) (only parsing).
Local Abbreviation row1 := (mkRow 1 (CStr "ACGN") (CInt 4) []) (only parsing).
Local Abbreviation row2 := (mkRow 2 (CStr "AC") (CInt 2) []) (only parsing).
Local Abbreviation row3 := (mkRow 3 (CStr "ACGT") (CInt 4) []) (only parsing).
Local Abbreviation report_A :=
  [ mkRemoval (CStr "ACGN") (CInt 4) "ambiguous_N";
    mkRemoval (CStr "AC") (CInt 2) "short_length";
    mkRemoval (CStr "ACGT") (CInt 4) "duplicate" ] (only parsing).

(** X2 on scenario B, where the labelling loop raises. *)
Lemma pipeline_exception_witness :
  pipeline scenario_B "sequence" "length" 4 = Raise ValueError /\
  ((ValueError = KeyError /\
    has_column scenario_B "sequence" = false) \/
   (ValueError = AttributeError /\
    has_column scenario_B "sequence" = true /\
    exists r, In r (rows scenario_B) /\ forall s, seq r <> CStr s) \/
   (ValueError = KeyError /\
    has_column scenario_B "sequence" = true /\
    (forall r, In r (rows scenario_B) -> exists s, seq r = CStr s) /\
    has_column scenario_B "length" = false) \/
   (ValueError = TypeError /\
    has_column scenario_B "sequence" = true /\
    has_column scenario_B "length" = true /\
    (forall r, In r (rows scenario_B) -> exists s, seq r = CStr s) /\
    exists r s t, In r (rows scenario_B) /\ seq r = CStr s /\
                  count "N"%char s = 0 /\ len r = CStr t) \/
   (ValueError = ValueError /\
    exists data removal_records,
      run_filters scenario_B "sequence" "length" 4
        = Ok (data, removal_records) /\
      Exists (fun record => rows (fst record) = []) removal_records)).
Proof.
  split; [reflexivity |].
  apply (pipeline_exception scenario_B "sequence" "length" 4 ValueError);
    reflexivity.
Defined.

(** X3 on scenario A. *)
Lemma filter_ambiguous_rows_witness :
  let kept := mkFrame header [row0; row2; row3] in
  let removed := mkFrame header [row1] in
  filter_ambiguous scenario_A "sequence" = Ok (kept, removed, "ambiguous_N") /\
  "ambiguous_N" = "ambiguous_N" /\
  columns kept = columns scenario_A /\
  columns removed = columns scenario_A /\
  (forall r, In r (rows removed) <->
     In r (rows scenario_A) /\
     exists s, seq r = CStr s /\ 1 <= count "N"%char s) /\
  (forall r, In r (rows kept) <->
     In r (rows scenario_A) /\
     exists s, seq r = CStr s /\ count "N"%char s = 0).
Proof.
  intros kept removed; split; [reflexivity |].
  apply (filter_ambiguous_rows scenario_A "sequence" kept removed
           "ambiguous_N"); reflexivity.
Defined.

(** X4 on scenario A. *)
Lemma filter_length_rows_witness :
  let kept := mkFrame header [row0; row1; row3] in
  let removed := mkFrame header [row2] in
  filter_length scenario_A "length" 3 = Ok (kept, removed, "short_length") /\
  "short_length" = "short_length" /\
  columns kept = columns scenario_A /\
  columns removed = columns scenario_A /\
  (forall r, In r (rows removed) <->
     In r (rows scenario_A) /\ exists z, len r = CInt z /\ (z < 3)%Z) /\
  (forall r, In r (rows kept) <->
     In r (rows scenario_A) /\
     (len r = CNaN \/ exists z, len r = CInt z /\ (3 <= z)%Z)).
Proof.
  intros kept removed; split; [reflexivity |].
  apply (filter_length_rows scenario_A "length" 3 kept removed
           "short_length"); reflexivity.
Defined.

(** X5 on scenario A. *)
Lemma filter_duplicate_rows_witness :
  let kept := mkFrame header [row0; row1; row2] in
  let removed := mkFrame header [row3] in
  filter_duplicate scenario_A "sequence" = Ok (kept, removed, "duplicate") /\
  "duplicate" = "duplicate" /\
  columns kept = columns scenario_A /\
  columns removed = columns scenario_A /\
  NoDup (map seq (rows kept)) /\
  (forall r, In r (rows kept) -> In r (rows scenario_A)) /\
  (forall r, In r (rows scenario_A) ->
     exists k, In k (rows kept) /\ seq k = seq r) /\
  (forall r, In r (rows removed) ->
     In r (rows scenario_A) /\ exists k, In k (rows kept) /\ seq k = seq r).
Proof.
  intros kept removed; split; [reflexivity |].
  apply (filter_duplicate_rows scenario_A "sequence" kept removed
           "duplicate"); reflexivity.
Defined.

(** X6 on scenario A. *)
Lemma removal_reasons_justified_witness :
  let data := mkFrame header [row0] in
  pipeline scenario_A "sequence" "length" 3 = Ok (data, report_A) /\
  forall x, In x report_A ->
    (reason_removed x = "ambiguous_N" /\
     exists s, r_seq x = CStr s /\ 1 <= count "N"%char s) \/
    (reason_removed x = "short_length" /\
     (exists s, r_seq x = CStr s /\ count "N"%char s = 0) /\
     exists z, r_len x = CInt z /\ (z < 3)%Z) \/
    (reason_removed x = "duplicate" /\
     (exists s, r_seq x = CStr s /\ count "N"%char s = 0) /\
     (r_len x = CNaN \/ exists z, r_len x = CInt z /\ (3 <= z)%Z) /\
     exists k, In k (rows data) /\ seq k = r_seq x).
Proof.
  intros data; split; [reflexivity |].
  apply (removal_reasons_justified scenario_A "sequence" "length" 3
           data report_A); reflexivity.
Defined.

(** X7 on scenario A. *)
Lemma every_row_kept_or_reported_witness :
  let data := mkFrame header [row0] in
  pipeline scenario_A "sequence" "length" 3 = Ok (data, report_A) /\
  forall r, In r (rows scenario_A) ->
    In r (rows data) \/
    exists reason, In (mkRemoval (seq r) (len r) reason) report_A.
Proof.
  intros data; split; [reflexivity |].
  apply (every_row_kept_or_reported scenario_A "sequence" "length" 3
           data report_A); reflexivity.
Defined.

(** X8 on scenario A. *)
Lemma filters_keep_row_order_witness :
  let data := mkFrame header [row0] in
  let removal_records :=
    [ (mkFrame header [row1], "ambiguous_N");
      (mkFrame header [row2], "short_length");
      (mkFrame header [row3], "duplicate") ] in
  run_filters scenario_A "sequence" "length" 3 = Ok (data, removal_records) /\
  StronglySorted lt (map label (rows scenario_A)) /\
  StronglySorted lt (map label (rows data)) /\
  Forall (fun record => StronglySorted lt (map label (rows (fst record))))
         removal_records.
Proof.
  intros data removal_records.
  assert (S : StronglySorted lt (map label (rows scenario_A)))
    by (simpl; repeat constructor).
  split; [reflexivity |]. split; [exact S |].
  apply (filters_keep_row_order scenario_A "sequence" "length" 3
           data removal_records); [reflexivity | exact S].
Defined.

(** X9 on scenario B. *)
Lemma clean_table_stops_at_labelling_witness :
  has_column scenario_B "sequence" = true /\
  has_column scenario_B "length" = true /\
  (forall r, In r (rows scenario_B) ->
     exists s, seq r = CStr s /\ count "N"%char s = 0) /\
  (forall r, In r (rows scenario_B) ->
     len r = CNaN \/ exists z, len r = CInt z /\ (4 <= z)%Z) /\
  NoDup (map seq (rows scenario_B)) /\
  run_filters scenario_B "sequence" "length" 4
    = Ok (scenario_B, [ (mkFrame (columns scenario_B) [], "ambiguous_N");
                        (mkFrame (columns scenario_B) [], "short_length");
                        (mkFrame (columns scenario_B) [], "duplicate") ]) /\
  pipeline scenario_B "sequence" "length" 4 = Raise ValueError /\
  run scenario_B "sequence" "length" 4 = (Raise ValueError, []).
Proof.
  assert (Hseq : forall r, In r (rows scenario_B) ->
            exists s, seq r = CStr s /\ count "N"%char s = 0).
  { simpl; intros r [<- | [<- | [<- | []]]]; eexists; split; reflexivity. }
  assert (Hlen : forall r, In r (rows scenario_B) ->
            len r = CNaN \/ exists z, len r = CInt z /\ (4 <= z)%Z).
  { simpl; intros r [<- | [<- | [<- | []]]]; right; eexists;
      (split; [reflexivity | simpl; lia]). }
  assert (ND : NoDup (map seq (rows scenario_B))).
  { simpl; repeat (constructor; [simpl; intuition discriminate |]);
      constructor. }
  split; [reflexivity |]. split; [reflexivity |].
  split; [exact Hseq |]. split; [exact Hlen |]. split; [exact ND |].
  apply (clean_table_stops_at_labelling scenario_B "sequence" "length" 4
           eq_refl eq_refl Hseq Hlen ND).
Defined.

(** X10 on scenario A. *)
Lemma reason_counts_add_up_witness :
  let written := snd (run scenario_A "sequence" "length" 3) in
  run scenario_A "sequence" "length" 3 = (Ok tt, written) /\
  exists removal_report summary_data n1 n2 n3,
    written = [removal_file removal_report; metrics_file summary_data] /\
    n1 = removed_for "ambiguous_N" removal_report /\
    n2 = removed_for "short_length" removal_report /\
    n3 = removed_for "duplicate" removal_report /\
    metric "removed_ambiguous_N" summary_data = Some (Num (of_nat n1)) /\
    metric "removed_short_length" summary_data = Some (Num (of_nat n2)) /\
    metric "removed_duplicate" summary_data = Some (Num (of_nat n3)) /\
    metric "removed_rows" summary_data = Some (Num (of_nat (n1 + n2 + n3))) /\
    1 <= n1 /\ 1 <= n2 /\ 1 <= n3 /\
    n1 + n2 + n3 = List.length removal_report.
Proof.
  intros written; split; [reflexivity |].
  apply (reason_counts_add_up scenario_A "sequence" "length" 3 written).
  reflexivity.
Defined.

(** X11 on scenario A. *)
Lemma fraction_rows_within_bounds_witness :
  let written := snd (run scenario_A "sequence" "length" 3) in
  run scenario_A "sequence" "length" 3 = (Ok tt, written) /\
  exists data removal_report summary_data q,
    pipeline scenario_A "sequence" "length" 3 = Ok (data, removal_report) /\
    written = [removal_file removal_report; metrics_file summary_data] /\
    metric "fraction_rows" summary_data = Some (Num q) /\
    (0 <= q)%Q /\ (q <= 100)%Q /\
    (q + of_nat (List.length (rows data))
         / of_nat (List.length (rows scenario_A)) * 100 == 100)%Q.
Proof.
  intros written; split; [reflexivity |].
  apply (fraction_rows_within_bounds scenario_A "sequence" "length" 3 written).
  reflexivity.
Defined.

(** X14 on scenario A. *)
Lemma at_most_three_reasons_witness :
  let written := snd (run scenario_A "sequence" "length" 3) in
  run scenario_A "sequence" "length" 3 = (Ok tt, written) /\
  exists removal_report summary_data,
    written = [removal_file removal_report; metrics_file summary_data] /\
    List.length (value_counts (map reason_removed removal_report)) <= 3 /\
    12 <= List.length summary_data <= 15.
Proof.
  intros written; split; [reflexivity |].
  apply (at_most_three_reasons scenario_A "sequence" "length" 3 written).
  reflexivity.
Defined.


(** X15 on scenario A. *)
Lemma completed_pipeline_has_every_reason_witness :
  let data := mkFrame header [row0] in
  pipeline scenario_A "sequence" "length" 3 = Ok (data, report_A) /\
  1 <= removed_for "ambiguous_N" report_A /\
  1 <= removed_for "short_length" report_A /\
  1 <= removed_for "duplicate" report_A /\
  List.length (value_counts (map reason_removed report_A)) = 3 /\
  rows data <> [] /\
  4 <= List.length (rows scenario_A).
Proof.
  intros data; split; [reflexivity |].
  apply (completed_pipeline_has_every_reason scenario_A "sequence" "length" 3
           data report_A); reflexivity.
Defined.

(** X17 on the sequence acGT. *)
Lemma GC_percentage_ignores_case_witness :
  is_ascii "acGT" = true /\
  count "G"%char (upper "acGT") = count "G"%char "acGT" + count "g"%char "acGT" /\
  count "C"%char (upper "acGT") = count "C"%char "acGT" + count "c"%char "acGT" /\
  GC_percentage (CStr (upper "acGT")) = GC_percentage (CStr "acGT").
Proof.
  split; [reflexivity |].
  apply (GC_percentage_ignores_case "acGT"); reflexivity.
Defined.

(** X21 on scenario A. *)
Lemma ambiguous_and_length_commute_witness :
  well_formed scenario_A "sequence" "length" /\
  exists a removed_a b removed_b c removed_c d removed_d,
    filter_ambiguous scenario_A "sequence"
      = Ok (a, removed_a, "ambiguous_N") /\
    filter_length a "length" 3 = Ok (b, removed_b, "short_length") /\
    filter_length scenario_A "length" 3 = Ok (c, removed_c, "short_length") /\
    filter_ambiguous c "sequence" = Ok (d, removed_d, "ambiguous_N") /\
    b = d.
Proof.
  split; [table_ok |].
  apply (ambiguous_and_length_commute scenario_A "sequence" "length" 3).
  table_ok.
Defined.


(** X24 on the table with the same sequence twice, thresholds 0 and 3. *)
Lemma raising_threshold_keeps_fewer_witness :
  let data := mkFrame header [mkRow 0 (CStr "ACGT") (CInt 2) []] in
  let removal_records :=
    [ (mkFrame header [], "ambiguous_N");
      (mkFrame header [], "short_length");
      (mkFrame header [mkRow 1 (CStr "ACGT") (CInt 4) []], "duplicate") ] in
  run_filters same_sequence_twice "sequence" "length" 0
    = Ok (data, removal_records) /\
  (0 <= 3)%Z /\
  exists data' removal_records',
    run_filters same_sequence_twice "sequence" "length" 3
      = Ok (data', removal_records') /\
    List.length (rows data') <= List.length (rows data) /\
    forall r', In r' (rows data') ->
      exists r, In r (rows data) /\ seq r = seq r'.
Proof.
  intros data removal_records.
  split; [reflexivity |]. split; [discriminate |].
  apply (raising_threshold_keeps_fewer same_sequence_twice
           "sequence" "length" 0 3 data removal_records);
    [reflexivity | discriminate].
Defined.
